(** * canute-ui: pagination, braille encoding and the combined driver

    A shallow embedding of [ui/utility.py], [ui/pageable.py] and
    [ui/driver_both.py] (Python 2), followed by the properties of these
    functions.

    Conventions of the embedding:
    - Python integers are [Z]; a [str] is a [string] (a sequence of 8-bit
      characters, as in Python 2); a unicode character is represented by
      its code point.
    - Lists of pin numbers are mutable Python objects: a line of content is
      a location in a heap of list objects, so that aliasing between
      [self.content] and its slices is visible.
    - A method is a function from the state to an outcome (a value or a
      raised exception) and the state reached; a raise keeps the mutations
      done before it.
    - Calls to [log.*] have no effect on the modelled state and are left
      out. *)

From Stdlib Require Import ZArith List Ascii String Lia Bool.
From stdpp Require Import base option list gmap strings pretty sorting.

Open Scope Z_scope.

(** ** Python primitives *)

Module Py.

(** Exceptions the modelled code raises or catches. *)
Inductive exn :=
| IndexError (msg : string)
| PageableError (msg : string)
| ZeroDivisionError
| ValueError
| TypeError
| UnpicklingError
| IOError
| OSError
| AttributeError (name : string)
| OtherError (msg : string).

Inductive outcome (A : Type) :=
| Ok (a : A)
| Raise (e : exn).
Arguments Ok {A} a.
Arguments Raise {A} e.

(** State and exception monad: the state reached is returned also when
    the computation raises. *)
Definition M (S A : Type) : Type := S -> outcome A * S.

Definition ret {S A} (a : A) : M S A := fun s => (Ok a, s).
Definition raise {S A} (e : exn) : M S A := fun s => (Raise e, s).
Definition bind {S A B} (m : M S A) (k : A -> M S B) : M S B :=
  fun s => match m s with
           | (Ok a, s') => k a s'
           | (Raise e, s') => (Raise e, s')
           end.
Definition get {S} : M S S := fun s => (Ok s, s).
Definition gets {S A} (f : S -> A) : M S A := fun s => (Ok (f s), s).
Definition modify {S} (f : S -> S) : M S unit := fun s => (Ok tt, f s).

(** [try: m except E: h], where [catches] selects the exceptions of
    class [E]. *)
Definition try_except {S A} (m : M S A) (catches : exn -> bool)
    (h : M S A) : M S A :=
  fun s => match m s with
           | (Ok a, s') => (Ok a, s')
           | (Raise e, s') => if catches e then h s' else (Raise e, s')
           end.

Definition is_IndexError (e : exn) : bool :=
  match e with IndexError _ => true | _ => false end.
Definition is_IOError (e : exn) : bool :=
  match e with IOError => true | _ => false end.
Definition is_OSError (e : exn) : bool :=
  match e with OSError => true | _ => false end.
Definition any_exn (e : exn) : bool := true.

(** [len(l)] *)
Definition len {A} (l : list A) : Z := Z.of_nat (length l).

(** A slice bound as Python adjusts it: a negative bound counts from the
    end, and the result is clamped to [0, len]. *)
Definition slice_bound (n i : Z) : Z :=
  if i <? 0 then Z.max 0 (i + n) else Z.min i n.

(** [l[i:j]] *)
Definition slice {A} (l : list A) (i j : Z) : list A :=
  let lo := slice_bound (len l) i in
  let hi := slice_bound (len l) j in
  take (Z.to_nat (hi - lo)) (drop (Z.to_nat lo) l).

(** [l[i]]: [None] stands for [IndexError]; indices [-len .. -1] count
    from the end. *)
Definition getitem {A} (l : list A) (i : Z) : option A :=
  if i <? 0
  then (if i + len l <? 0 then None else l !! Z.to_nat (i + len l))
  else l !! Z.to_nat i.

(** [l * n]: [n] copies of [l], none when [n <= 0]. *)
Definition repeat {A} (l : list A) (n : Z) : list A :=
  concat (replicate (Z.to_nat n) l).

(** [int(math.ceil(a / float(b)))] for [b <> 0]: the ceiling of the
    quotient.  The source computes it in double precision, which is exact
    for operands below 2^53. *)
Definition ceil_div (a b : Z) : Z := - ((- a) / b).

(** [sorted(l, key=...)] on keys that are lists of characters: a stable
    sort, here by insertion after the last element not greater. *)
Fixpoint chars_ltb (a b : list ascii) : bool :=
  match a, b with
  | _, [] => false
  | [], _ :: _ => true
  | x :: a', y :: b' =>
      if (nat_of_ascii x <? nat_of_ascii y)%nat then true
      else if (nat_of_ascii y <? nat_of_ascii x)%nat then false
      else chars_ltb a' b'
  end.

Fixpoint insert_by {A} (key : A -> list ascii) (x : A) (l : list A) : list A :=
  match l with
  | [] => [x]
  | y :: l' =>
      if chars_ltb (key x) (key y) then x :: y :: l'
      else y :: insert_by key x l'
  end.

Definition sorted {A} (l : list A) (key : A -> list ascii) : list A :=
  foldl (fun acc x => insert_by key x acc) [] l.


(** [range(n)] *)
Definition range (n : Z) : list Z := map Z.of_nat (seq 0 (Z.to_nat n)).

(** Statements run one after the other. *)
Fixpoint seq_all {S} (ops : list (M S unit)) : M S unit :=
  match ops with
  | [] => ret tt
  | op :: ops' => bind op (fun _ => seq_all ops')
  end.

End Py.
Import Py.

Notation "x <- c1 ;; c2" := (Py.bind c1 (fun x => c2))
  (at level 100, c1 at next level, right associativity).
Notation "c1 ;;; c2" := (Py.bind c1 (fun _ => c2))
  (at level 100, right associativity).

(** ** ui/utility.py *)

Module Utility.

(** A unicode character, given by its code point ([ord]). *)
Definition unichar := Z.
Definition ord (c : unichar) : Z := c.

(** One [if int_code >= w: int_code -= w; pins[i] = 1; pin_num += w]
    block of [unicode_to_pin_num]. *)
Definition take_dot (w : Z) (i : nat) (st : Z * list Z * Z) : Z * list Z * Z :=
  let '(int_code, pins, pin_num) := st in
  if int_code >=? w
  then (int_code - w, <[i := 1]> pins, pin_num + w)
  else st.

Definition unicode_to_pin_num (uni_char : unichar) : Z :=
  let int_code := ord uni_char - 10240 in
  let pin_num := 0 in
  let pins := Py.repeat [0] 6 in
  let st := (int_code, pins, pin_num) in
  let st := take_dot 0x20 5 st in
  let st := take_dot 0x10 4 st in
  let st := take_dot 0x8 3 st in
  let st := take_dot 0x4 2 st in
  let st := take_dot 0x2 1 st in
  let st := take_dot 0x1 0 st in
  let '(_, _, pin_num) := st in
  pin_num.

(** The Braille ASCII table of [alpha_to_pin_num]; its 17th character is
    the double quote (code 34). *)
Definition mapping : string :=
  (" A1B'K2L@CIF/MSP" +:+
   String (ascii_of_nat 34) "E3H9O6R^DJG>NTQ,*5<-U8V.%[$+X!&;:4\0Z7(_?W]#Y)=")%string.

(** [c.upper()] for one 8-bit character (C locale). *)
Definition upper (c : ascii) : ascii :=
  let n := nat_of_ascii c in
  if ((97 <=? n) && (n <=? 122))%nat then ascii_of_nat (n - 32) else c.

(** [s.index(c)] for a one-character [c]: the first position of [c],
    [None] for [ValueError]. *)
Fixpoint index (s : list ascii) (c : ascii) : option nat :=
  match s with
  | [] => None
  | x :: s' => if decide (x = c) then Some 0%nat else S <$> index s' c
  end.

Definition alpha_to_pin_num (alpha : ascii) : Z :=
  let alpha := upper alpha in
  match index (list_ascii_of_string mapping) alpha with
  | Some i => Z.of_nat i
  | None => 0
  end.

(** [map(alpha_to_pin_num, alphas)] over the characters of a [str]. *)
Definition alphas_to_pin_nums (alphas : string) : list Z :=
  map alpha_to_pin_num (list_ascii_of_string alphas).

(** [unichr(n)]; [None] for [ValueError] outside the code-point range. *)
Definition unichr (n : Z) : option unichar :=
  if (0 <=? n) && (n <? 0x110000) then Some n else None.

Definition alpha_to_unicode (alpha : ascii) : option unichar :=
  unichr (alpha_to_pin_num alpha + 10240).

(** Modelled from the spec: [pin_nums_to_alphas] is imported by
    [pageable.py] from [utility] but its body is not in the source; the
    spec describes it as the inverse table lookup, pin value to
    character, over the same 64-entry table. *)
Definition pin_num_to_alpha (numeric : Z) : option ascii :=
  Py.getitem (list_ascii_of_string mapping) numeric.

Definition pin_nums_to_alphas (numbers : list Z) : option (list ascii) :=
  mapM pin_num_to_alpha numbers.

(** [test_book]: for each of 8 characters, [dimensions[1]] lines of
    [dimensions[0]] copies. *)
Definition test_book (dimensions : Z * Z) : list (list Z) :=
  concat (map (fun i =>
                 let char := i + Z.shiftl i 3 in
                 map (fun _ => Py.repeat [char] (fst dimensions))
                     (Py.range (snd dimensions)))
              (Py.range 8)).

Definition test_pattern (dimensions : Z * Z) : list Z :=
  let '(cols, rows) := dimensions in
  map (fun i => i mod 64) (Py.range (cols * rows)).

End Utility.

(** ** The state the classes of ui/pageable.py work on *)

Module World.

(** The identity of a Python list object holding one line of pins. *)
Definition loc := nat.

(** A book definition: the dict [{"title", "filename", "type"}]. *)
Record book_def := mk_book_def {
  title : string;
  filename : string;
  type_ : string
}.

(** What [pickle.dump] stored in a file. *)
Inductive pickled :=
| PState (page : Z)                 (* {'page': page} *)
| PBookDefs (defs : list book_def). (* the list of book definitions *)

(** A file: raw characters, or a pickled object.  The file system is a
    flat map from path to file; creating a file always succeeds. *)
Inductive file :=
| RawFile (data : string)
| PickleFile (obj : pickled).

(** Calls received by [ui.driver]. *)
Inductive driver_call :=
| send_error_sound
| send_ok_sound
| clear_page.

Record world := mk_world {
  heap : gmap loc (list Z);
  fs : gmap string file;
  driver_calls : list driver_call;
  os_calls : list string
}.

Definition set_heap (h : gmap loc (list Z)) (w : world) : world :=
  mk_world h (fs w) (driver_calls w) (os_calls w).
Definition set_fs (f : gmap string file) (w : world) : world :=
  mk_world (heap w) f (driver_calls w) (os_calls w).
Definition add_driver_call (c : driver_call) (w : world) : world :=
  mk_world (heap w) (fs w) (driver_calls w ++ [c]) (os_calls w).
Definition add_os_call (c : string) (w : world) : world :=
  mk_world (heap w) (fs w) (driver_calls w) (os_calls w ++ [c]).

(** Reading through a reference to a list object.  Every reference a
    Python program holds is live; a dangling one is an error of the
    model only. *)
Definition deref (r : loc) : M world (list Z) :=
  fun w => match heap w !! r with
           | Some l => (Ok l, w)
           | None => (Raise (OtherError "dangling reference"), w)
           end.

(** [line.append(x)] *)
Definition append (r : loc) (x : Z) : M world unit :=
  l <- deref r ;;
  Py.modify (fun w => set_heap (<[r := l ++ [x]]> (heap w)) w).

(** A new list object. *)
Definition alloc (l : list Z) : M world loc :=
  fun w => let r := fresh (dom (heap w)) in
           (Ok r, set_heap (<[r := l]> (heap w)) w).

(** [self.ui.driver.<call>()] *)
Definition driver (c : driver_call) : M world unit :=
  Py.modify (add_driver_call c).

(** [os.system(cmd)] *)
Definition os_system (cmd : string) : M world unit :=
  Py.modify (add_os_call cmd).

(** [open(path).read()], [IOError] when the file is absent. *)
Definition read_file (path : string) : M world file :=
  fun w => match fs w !! path with
           | Some f => (Ok f, w)
           | None => (Raise IOError, w)
           end.

Definition write_file (path : string) (f : file) : M world unit :=
  Py.modify (fun w => set_fs (<[path := f]> (fs w)) w).

(** [os.remove(path)], [OSError] when the file is absent. *)
Definition os_remove (path : string) : M world unit :=
  fun w => match fs w !! path with
           | Some _ => (Ok tt, set_fs (delete path (fs w)) w)
           | None => (Raise OSError, w)
           end.

(** [fh.write(data)] on a file opened for writing. *)
Definition append_file (path : string) (data : string) : M world unit :=
  f <- read_file path ;;
  match f with
  | RawFile d => write_file path (RawFile (d +:+ data))
  | PickleFile _ => write_file path (RawFile data)
  end.

(** The text of a file.  The characters of a pickle are not modelled. *)
Definition file_text (f : file) : M world string :=
  match f with
  | RawFile d => Py.ret d
  | PickleFile _ => Py.raise (OtherError "pickled data read as text")
  end.

(** The configuration: [config.get('files', 'library_dir')]. *)
Record config := mk_config { library_dir : string }.

End World.
Import World.

(** ** class Pageable *)

Module Pageable.

(** The fields of a [Pageable]; [state_file] is what the subclass's
    [get_state_file()] returns.  The content is a list of line objects
    for [Menu] and [Library], a file-backed sequence for [Book]. *)
Record t (C : Type) := mk {
  dimensions : Z * Z;
  cells : Z;
  rows : Z;
  page : Z;
  content : C;
  state_file : string
}.
Arguments mk {C}.
Arguments dimensions {C}.
Arguments cells {C}.
Arguments rows {C}.
Arguments page {C}.
Arguments content {C}.
Arguments state_file {C}.

Definition set_page {C} (n : Z) (self : t C) : t C :=
  mk (dimensions self) (cells self) (rows self) n (content self)
     (state_file self).
Definition set_content {C} (c : C) (self : t C) : t C :=
  mk (dimensions self) (cells self) (rows self) (page self) c
     (state_file self).

(** Methods run on the object and the world. *)
Definition state (C : Type) : Type := t C * world.

Definition self_ {C} : M (state C) (t C) := Py.gets fst.
Definition update {C} (f : t C -> t C) : M (state C) unit :=
  Py.modify (fun s : state C => (f (fst s), snd s)).
Definition in_world {C A} (m : M world A) : M (state C) A :=
  fun s => let '(r, w) := m (snd s) in (r, (fst s, w)).

Definition save_state {C} : M (state C) unit :=
  self <- self_ ;;
  in_world (write_file (state_file self) (PickleFile (PState (page self)))).

Definition load_state {C} : M (state C) unit :=
  self <- self_ ;;
  Py.try_except
    (f <- in_world (read_file (state_file self)) ;;
     match f with
     | PickleFile (PState p) => update (set_page p)
     | PickleFile (PBookDefs _) => Py.raise TypeError
     | RawFile _ => Py.raise UnpicklingError
     end)
    Py.is_IOError
    (Py.ret tt).

(** [Pageable.__init__], given the subclass's state file. *)
Definition init {C} (content : C) (dimensions : Z * Z) (state_file : string)
    : M world (t C) :=
  fun w =>
    let self := mk dimensions (fst dimensions) (snd dimensions) 0 content
                   state_file in
    match load_state (self, w) with
    | (Ok _, (self', w')) => (Ok self', w')
    | (Raise e, (_, w')) => (Raise e, w')
    end.

Definition remove_state {C} : M (state C) unit :=
  self <- self_ ;;
  Py.try_except (in_world (os_remove (state_file self)))
    Py.is_OSError (Py.ret tt).

Definition home {C} : M (state C) unit :=
  self <- self_ ;;
  if negb (page self =? 0) then update (set_page 0) else Py.ret tt.

Definition prev {C} : M (state C) unit :=
  self <- self_ ;;
  if page self >? 0 then update (set_page (page self - 1)) else Py.ret tt.

(** The methods below use the content as a list of line objects. *)
Abbreviation lines := (list loc).

Definition delete_content : M (state lines) unit := update (set_content []).

Definition get_num_pages : M (state lines) Z :=
  self <- self_ ;;
  if rows self =? 0 then Py.raise ZeroDivisionError
  else Py.ret (Py.ceil_div (Py.len (content self)) (rows self)).

(** The sort keys of the lines, [pin_nums_to_alphas(line)] for each. *)
Fixpoint keys_of (content : lines) : M world (list (list ascii * loc)) :=
  match content with
  | [] => Py.ret []
  | r :: content' =>
      l <- deref r ;;
      match Utility.pin_nums_to_alphas l with
      | Some k => ks <- keys_of content' ;; Py.ret ((k, r) :: ks)
      | None => Py.raise (IndexError "string index out of range")
      end
  end.

Definition add_new_item (item : loc) : M (state lines) unit :=
  update (fun self => set_content (content self ++ [item]) self) ;;;
  self <- self_ ;;
  keyed <- in_world (keys_of (content self)) ;;
  update (set_content (map snd (Py.sorted keyed fst))).

(** [while len(line) < self.cells: line.append(0)].  Each iteration
    makes the line one longer, so [Z.to_nat cells] iterations are enough
    for the condition to become false. *)
Fixpoint while_append (fuel : nat) (cells : Z) (line : loc) : M world unit :=
  match fuel with
  | O => Py.ret tt
  | S fuel' =>
      l <- deref line ;;
      if Py.len l <? cells
      then (append line 0 ;;; while_append fuel' cells line)
      else Py.ret tt
  end.

(** The [for line in content] loop of [fit_content]; the [else] of the
    [while] has no [break] to skip it, so it always runs. *)
Fixpoint fit_lines (cells : Z) (content : lines)
    (return_text : list (list Z)) : M world (list (list Z)) :=
  match content with
  | [] => Py.ret return_text
  | line :: content' =>
      while_append (Z.to_nat cells) cells line ;;;
      l <- deref line ;;
      let line := Py.slice l 0 cells in
      fit_lines cells content' (return_text ++ [line])
  end.

Definition fit_content (content : lines) : M (state lines) (list (list Z)) :=
  self <- self_ ;;
  return_text <- in_world (fit_lines (cells self) content []) ;;
  let missing_rows := rows self - Py.len return_text in
  Py.ret (return_text ++
          [Py.repeat (Py.repeat [0] (cells self)) missing_rows]).

Definition show : M (state lines) (list Z) :=
  self <- self_ ;;
  let start_line := page self * rows self in
  let end_line := page self * rows self + rows self - 1 in
  let end_line :=
    if end_line >? Py.len (content self) - 1
    then Py.len (content self) - 1 else end_line in
  (* the log line evaluates self.get_num_pages() *)
  _ <- get_num_pages ;;
  let output := Py.slice (content self) start_line (end_line + 1) in
  output <- fit_content output ;;
  let output := concat output in
  save_state ;;;
  Py.ret output.

Definition end_ : M (state lines) unit :=
  self <- self_ ;;
  n <- get_num_pages ;;
  if n =? 0 then Py.ret tt
  else
    n1 <- get_num_pages ;;
    if negb (page self =? n1 - 1)
    then (n2 <- get_num_pages ;; update (set_page (n2 - 1)))
    else Py.ret tt.

Definition next : M (state lines) unit :=
  self <- self_ ;;
  n <- get_num_pages ;;
  if page self <? n - 1 then update (set_page (page self + 1))
  else Py.ret tt.

End Pageable.

(** ** class Menu *)

Module Menu.

(** A menu item: [{'title': ..., 'action': ...}]; the action is a bound
    method, run for its effects. *)
Record item := mk_item {
  title : string;
  action : M world unit
}.

Record t := mk {
  base : Pageable.t (list loc);
  menu : list item
}.

Section Actions.
(** [self.ui.library.refresh()]: [ui] is the composition root, which is
    outside the source. *)
Variable ui_library_refresh : M world unit.
(** What [get_ip_address()] returned. *)
Variable ip_address : string.

Definition ignore : M world unit := Py.ret tt.

Definition shutdown : M world unit :=
  driver clear_page ;;;
  os_system "sudo shutdown -h now".

Definition refresh : M world unit :=
  ui_library_refresh ;;;
  driver send_ok_sound.

Definition get_state_file : string := "menu.pkl".

(** [map(alphas_to_pin_nums, menu_titles)]: one new list per title. *)
Fixpoint alloc_lines (titles : list string) : M world (list loc) :=
  match titles with
  | [] => Py.ret []
  | s :: titles' =>
      r <- alloc (Utility.alphas_to_pin_nums s) ;;
      rs <- alloc_lines titles' ;;
      Py.ret (r :: rs)
  end.

Definition init (dimensions : Z * Z) : M world t :=
  let menu :=
    [ mk_item "refresh library" refresh;
      mk_item "shutdown" shutdown;
      mk_item ("ip: " +:+ ip_address) ignore ] in
  let menu_titles := map title menu in
  menu_titles_brl <- alloc_lines menu_titles ;;
  base <- Pageable.init menu_titles_brl dimensions get_state_file ;;
  Py.ret (mk base menu).
End Actions.

Definition option (self : t) (number : Z) : M world unit :=
  let menu_num :=
    number + Pageable.page (base self) * Pageable.rows (base self) in
  Py.try_except
    (match Py.getitem (menu self) menu_num with
     | Some it => action it
     | None => Py.raise (IndexError "list index out of range")
     end)
    Py.is_IndexError
    (driver send_error_sound).

End Menu.

(** ** os.path, file objects and bytearray *)

Module Os.

(** [p.rfind(c)]: the last position of [c] in [p], [-1] when absent. *)
Fixpoint rfind_from (i : Z) (p : list ascii) (c : ascii) (last : Z) : Z :=
  match p with
  | [] => last
  | x :: p' => rfind_from (i + 1) p' c (if decide (x = c) then i else last)
  end.

Definition rfind (p : list ascii) (c : ascii) : Z := rfind_from 0 p c (-1).

(** [os.path.basename(p)] (posixpath): [p[p.rfind('/') + 1:]]. *)
Definition basename (p : string) : string :=
  let cs := list_ascii_of_string p in
  let i := rfind cs "/" + 1 in
  string_of_list_ascii (Py.slice cs i (Py.len cs)).

(** [os.path.splitext(p)] (posixpath): split at the last dot of the last
    path component, unless that component has only dots before it. *)
Definition splitext (p : string) : string * string :=
  let cs := list_ascii_of_string p in
  let sepIndex := rfind cs "/" in
  let dotIndex := rfind cs "." in
  if (dotIndex >? sepIndex) &&
     existsb (fun c => negb (Ascii.eqb c "."))
             (Py.slice cs (sepIndex + 1) dotIndex)
  then (string_of_list_ascii (Py.slice cs 0 dotIndex),
        string_of_list_ascii (Py.slice cs dotIndex (Py.len cs)))
  else (p, EmptyString).

Definition newline : ascii := ascii_of_nat 10.

(** [fh.readlines()]: the lines of a text, each with its newline (the
    last one may have none). *)
Fixpoint readlines (s : string) : list string :=
  match s with
  | EmptyString => []
  | String c s' =>
      if Ascii.eqb c newline then String c EmptyString :: readlines s'
      else match readlines s' with
           | [] => [String c EmptyString]
           | l :: ls => String c l :: ls
           end
  end.

(** [bytearray(l)]: one byte per integer, [None] for the [ValueError] of
    an integer outside [range(256)]. *)
Definition byte_of (v : Z) : option ascii :=
  if (0 <=? v) && (v <? 256) then Some (ascii_of_nat (Z.to_nat v)) else None.

Definition bytearray (l : list Z) : option string :=
  string_of_list_ascii <$> mapM byte_of l.


(** [u.rstrip()] on a unicode string: drop the trailing whitespace. *)
Definition is_space (c : Utility.unichar) : bool :=
  ((9 <=? c) && (c <=? 13)) || ((28 <=? c) && (c <=? 32)) ||
  (c =? 0x85) || (c =? 0xA0) || (c =? 0x1680) ||
  ((0x2000 <=? c) && (c <=? 0x200A)) || (c =? 0x2028) || (c =? 0x2029) ||
  (c =? 0x202F) || (c =? 0x205F) || (c =? 0x3000).

Fixpoint lstrip (u : list Utility.unichar) : list Utility.unichar :=
  match u with
  | c :: u' => if is_space c then lstrip u' else u
  | [] => []
  end.

Definition rstrip (u : list Utility.unichar) : list Utility.unichar :=
  rev (lstrip (rev u)).

(** [s.startswith(t)] and [s.endswith(t)]; with a tuple, any of its
    members. *)
Fixpoint startswith_chars (s t : list ascii) : bool :=
  match t, s with
  | [], _ => true
  | _ :: _, [] => false
  | y :: t', x :: s' => Ascii.eqb x y && startswith_chars s' t'
  end.

Definition startswith (s t : string) : bool :=
  startswith_chars (list_ascii_of_string s) (list_ascii_of_string t).

Definition endswith (s t : string) : bool :=
  startswith_chars (rev (list_ascii_of_string s)) (rev (list_ascii_of_string t)).

Definition endswith_any (s : string) (ts : list string) : bool :=
  existsb (endswith s) ts.

(** [os.path.join(a, b)] (posixpath). *)
Definition join (a b : string) : string :=
  if startswith b "/" then b
  else if String.eqb a EmptyString || endswith a "/" then a +:+ b
  else a +:+ "/" +:+ b.

(** [l.remove(x)]: without the first [x]; [None] for [ValueError]. *)
Fixpoint list_remove (x : string) (l : list string) : option (list string) :=
  match l with
  | [] => None
  | y :: l' => if String.eqb y x then Some l' else cons y <$> list_remove x l'
  end.

End Os.

(** ** ui/utility.py: looking for files *)

Module Files.

Section Walk.
(** [os.walk(directory)] on the file system as it is: the sequence of
    [(root, dirnames, filenames)] it yields. *)
Variable os_walk :
  gmap string file -> string -> list (string * list string * list string).

(** The matches of the two nested loops, in the order of the walk. *)
Definition matches_of (keep : string -> bool)
    (walk : list (string * list string * list string)) : list string :=
  concat (map (fun '(root, dirnames, filenames) =>
                 map (Os.join root) (List.filter keep filenames))
              walk).

Definition find_files (directory : string) (extensions : list string)
    : M world (list string) :=
  fun w => (Ok (matches_of (fun filename => Os.endswith_any filename extensions)
                           (os_walk (fs w) directory)), w).

(** [find_pef] passes the string ['.pef'], not a tuple. *)
Definition find_pef (directory : string) : M world (list string) :=
  find_files directory [".pef"%string].

(** [find_firmware]: the first match is returned from inside the loops,
    [None] when they end without one. *)
Definition find_firmware (directory : string) : M world (option string) :=
  let firmware_file := "canute-firmware.zip"%string in
  fun w => (Ok (head (matches_of (fun filename => String.eqb filename firmware_file)
                                 (os_walk (fs w) directory))), w).
End Walk.

End Files.

(** ** class Book *)

Module Book.

(** Modelled from the spec: [BookFile_List] is imported from
    [bookfile_list], which is not in the source; the spec describes it as
    a lazy sequence over a native file, bound to the file and the
    dimensions, read on access. *)
Record BookFile_List := mk_list {
  bf_filename : string;
  bf_dimensions : Z * Z
}.

Record t := mk {
  book_def_ : book_def;
  config_ : config;
  book_dir : string;
  base : Pageable.t BookFile_List
}.

Definition get_state_file (book_dir : string) (d : book_def) : string :=
  book_dir +:+ title d +:+ ".pkl".

Definition init (d : book_def) (dimensions : Z * Z) (cfg : config)
      : M world t :=
  let book_dir := library_dir cfg in
  if decide (type_ d = "native"%string)
  then
    let content := mk_list (filename d) dimensions in
    base <- Pageable.init content dimensions (get_state_file book_dir d) ;;
    Py.ret (mk d cfg book_dir base)
  else Py.raise (PageableError ("unknown book type " +:+ type_ d)).

End Book.

(** ** class Library *)

Module Library.

Definition native_ext : string := ".canute".

Record t := mk {
  base : Pageable.t (list loc);
  config_ : config;
  book_dir : string;
  book_defs_file : string;
  book_defs : list book_def
}.

Definition set_base (b : Pageable.t (list loc)) (self : t) : t :=
  mk b (config_ self) (book_dir self) (book_defs_file self) (book_defs self).
Definition set_book_defs (ds : list book_def) (self : t) : t :=
  mk (base self) (config_ self) (book_dir self) (book_defs_file self) ds.

Definition state : Type := t * world.

Definition self_ : M state t := Py.gets fst.
Definition update (f : t -> t) : M state unit :=
  Py.modify (fun s : state => (f (fst s), snd s)).
Definition in_world {A} (m : M world A) : M state A :=
  fun s => let '(r, w) := m (snd s) in (r, (fst s, w)).

(** A method inherited from [Pageable], run on the base fields. *)
Definition in_base {A} (m : M (Pageable.state (list loc)) A) : M state A :=
  fun s => let '(r, (b, w)) := m (base (fst s), snd s) in
           (r, (set_base b (fst s), w)).

Definition get_state_file (self : t) : string :=
  book_dir self +:+ "library.pkl".

Definition save_book_defs : M state unit :=
  self <- self_ ;;
  in_world (write_file (book_defs_file self)
                       (PickleFile (PBookDefs (book_defs self)))).

(** The writing loop of [convert_brf] and [convert_pef]:
    [fh.write(bytearray(line[:self.cells]))] for each line. *)
Fixpoint write_rows (cells : Z) (native_file : string)
      (lines : list (list Z)) : M world unit :=
  match lines with
  | [] => Py.ret tt
  | line :: lines' =>
      match Os.bytearray (Py.slice line 0 cells) with
      | Some data =>
          append_file native_file data ;;;
          write_rows cells native_file lines'
      | None => Py.raise ValueError
      end
  end.

(** [line.extend([0] * missing_cells)] on a line just built. *)
Definition ensure_length (cells : Z) (line : list Z) : list Z :=
  let missing_cells := cells - Py.len line in
  line ++ Py.repeat [0] missing_cells.

Definition convert_brf (self : t) (brf_file native_file : string)
      (remove : bool) : M world unit :=
  f <- read_file brf_file ;;
  text <- file_text f ;;
  let lines :=
    map (fun in_line => ensure_length (Pageable.cells (base self))
                          (Utility.alphas_to_pin_nums in_line))
        (Os.readlines text) in
  write_file native_file (RawFile EmptyString) ;;;
  write_rows (Pageable.cells (base self)) native_file lines ;;;
  if remove then os_remove brf_file else Py.ret tt.

Section Pef.
(** [xml.dom.minidom.parse] followed by [getElementsByTagName('row')]:
    for each row element the text of its first child node, [None] for a
    row without children; [None] for a file that does not parse. *)
Variable minidom_rows : file -> option (list (option (list Utility.unichar))).

Definition pef_line (cells : Z) (row : option (list Utility.unichar))
      : list Z :=
  match row with
  | Some data => map Utility.unicode_to_pin_num (Os.rstrip data)
  | None => Py.repeat [0] cells
  end.

Definition convert_pef (self : t) (pef_file native_file : string)
      : M world unit :=
  xml_doc <-
    Py.try_except
      (f <- read_file pef_file ;;
       match minidom_rows f with
       | Some rows => Py.ret (Some rows)
       | None => Py.raise (OtherError "ExpatError")
       end)
      Py.any_exn
      (os_remove pef_file ;;; Py.ret None) ;;
  match xml_doc with
  | None => Py.ret tt
  | Some rows =>
      let cells := Pageable.cells (base self) in
      let lines := map (fun row => ensure_length cells (pef_line cells row))
                       rows in
      write_file native_file (RawFile EmptyString) ;;;
      write_rows cells native_file lines ;;;
      os_remove pef_file
  end.

Definition add_book (book_file : string) (name : option string)
      (remove : bool) : M state unit :=
  self <- self_ ;;
  let '(basename, ext) := Os.splitext (Os.basename book_file) in
  book_file <-
    (if decide (ext = ".pef"%string) then
       let native_file := book_dir self +:+ basename +:+ native_ext in
       in_world (convert_pef self book_file native_file) ;;;
       Py.ret native_file
     else if decide (ext = ".brf"%string) then
       let native_file := book_dir self +:+ basename +:+ native_ext in
       in_world (convert_brf self book_file native_file remove) ;;;
       Py.ret native_file
     else if decide (ext = native_ext) then
       Py.ret book_file
     else
       Py.raise (PageableError ("book " +:+ book_file +:+
                                " in unknown format " +:+ ext))) ;;
  let name := match name with Some n => n | None => basename end in
  let d := mk_book_def name book_file "native" in
  update (fun self => set_book_defs (book_defs self ++ [d]) self) ;;;
  update (fun self =>
    set_book_defs
      (Py.sorted (book_defs self) (fun book => list_ascii_of_string (title book)))
      self) ;;;
  save_book_defs ;;;
  item <- in_world (alloc (Utility.alphas_to_pin_nums name)) ;;
  in_base (Pageable.add_new_item item).
End Pef.


Section Scan.
Variable os_walk :
  gmap string file -> string -> list (string * list string * list string).
Variable minidom_rows : file -> option (list (option (list Utility.unichar))).

(** [load_book_defs]: the object that becomes [self.book_defs]. *)
Definition load_book_defs (book_defs_file : string) : M world pickled :=
  Py.try_except
    (f <- read_file book_defs_file ;;
     match f with
     | PickleFile obj => Py.ret obj
     | RawFile _ => Py.raise UnpicklingError
     end)
    Py.is_IOError
    (Py.ret (PBookDefs [])).

(** [Library.remove_state] *)
Definition remove_state : M state unit :=
  update (set_book_defs []) ;;;
  in_base Pageable.remove_state.

(** The first loop of [check_for_new_books]. *)
Definition remove_existing (filenames : list string) (book_defs : list book_def)
    : list string :=
  foldl (fun filenames d =>
           match Os.list_remove (filename d) filenames with
           | Some filenames' => filenames'
           | None => filenames
           end)
        filenames book_defs.

(** The second loop: [self.add_book(path)] for each path. *)
Fixpoint add_books (paths : list string) : M state unit :=
  match paths with
  | [] => Py.ret tt
  | path :: paths' =>
      add_book minidom_rows path None true ;;;
      add_books paths'
  end.

Definition check_for_new_books : M state unit :=
  self <- self_ ;;
  filenames <- in_world (Files.find_files os_walk (book_dir self)
                           [".pef"%string; native_ext]) ;;
  add_books (remove_existing filenames (book_defs self)).

Definition refresh : M state unit :=
  remove_state ;;;
  in_base Pageable.delete_content ;;;
  check_for_new_books.

(** [Library.__init__]; a catalog file holding a page record loads as a
    dict, and reading the title of its key raises TypeError. *)
Definition init (dimensions : Z * Z) (cfg : config) : M world t :=
  let book_dir := library_dir cfg in
  let book_defs_file := book_dir +:+ "book_defs.pkl" in
  obj <- load_book_defs book_defs_file ;;
  book_defs <- match obj with
               | PBookDefs ds => Py.ret ds
               | PState _ => Py.raise TypeError
               end ;;
  let book_titles := map title book_defs in
  book_titles_brl <- Menu.alloc_lines book_titles ;;
  base <- Pageable.init book_titles_brl dimensions (book_dir +:+ "library.pkl") ;;
  fun w =>
    match check_for_new_books
            (mk base cfg book_dir book_defs_file book_defs, w) with
    | (Ok _, (self, w')) => (Ok self, w')
    | (Raise e, (_, w')) => (Raise e, w')
    end.
End Scan.

End Library.

(** ** ui/driver_both.py *)

Module DriverBoth.

Section Both.
(** The state the two backends act on (the emulator window, the serial
    line, the buttons), the positional and keyword arguments of a call and
    the values returned. *)
Context {W args value : Type}.

(** [self.emulated.__getattribute__(name)] and
    [self.pi.__getattribute__(name)]: the bound method, [None] for
    [AttributeError]. *)
Variable emulated : string -> option (args -> M W value).
Variable pi : string -> option (args -> M W value).

(** [utility.get_methods(Driver)] and [utility.get_methods(DriverBoth)];
    neither [get_methods] nor the [Driver] class is in the source. *)
Variable Driver_methods : list string.
Variable defined_methods : list string.

(** An attribute of the class: a method of the class body, or a method
    set by the loop at the end of the module. *)
Inductive attr :=
| Own
| Synthesized (m : args -> M W value).

Definition getattribute (obj : string -> option (args -> M W value))
      (name : string) : M W (args -> M W value) :=
  match obj name with
  | Some m => Py.ret m
  | None => Py.raise (AttributeError name)
  end.

Definition make_method (method_name : string) : args -> M W value :=
  fun a =>
    emulated_method <- getattribute emulated method_name ;;
    pi_method <- getattribute pi method_name ;;
    emulated_return <- emulated_method a ;;
    _ <- pi_method a ;;
    Py.ret emulated_return.

(** The class as its body leaves it. *)
Definition class_body : gmap string attr :=
  {[ "__init__"%string := Own; "__exit__"%string := Own;
     "__enter__"%string := Own ]}.

(** One iteration of [for method_name in utility.get_methods(Driver)]. *)
Definition install (cls : gmap string attr) (method_name : string)
      : gmap string attr :=
  if decide (method_name ∈ defined_methods) then cls
  else <[method_name := Synthesized (make_method method_name)]> cls.

(** The class once the module is loaded. *)
Definition DriverBoth : gmap string attr :=
  foldl install class_body Driver_methods.

(** A call [both.<name>(...)] with the arguments [a]. *)
Definition call (name : string) (a : args) : M W value :=
  match DriverBoth !! name with
  | Some (Synthesized m) => m a
  | Some Own => Py.raise (OtherError "method of the class body")
  | None => Py.raise (AttributeError name)
  end.
End Both.

End DriverBoth.

(** ** Notions the properties are stated with *)

Module Spec.

(** The page index is inside [0, n - 1], or is 0 when there is no page. *)
Definition page_ok (pg n : Z) : Prop :=
  0 <= pg <= n - 1 \/ (n = 0 /\ pg = 0).

(** A line zero-padded on the right up to [cells] values. *)
Definition pad_line (cells : Z) (l : list Z) : list Z :=
  l ++ replicate (Z.to_nat (cells - Py.len l)) 0.


(** What one line contributes to a page in [fit_content]: the padded
    line, cut by the slice [line[0:cells]]. *)
Definition fitted (cells : Z) (l : list Z) : list Z :=
  Py.slice (pad_line cells l) 0 cells.


(** The heap once the line objects [rs] have been padded in place. *)
Definition pad_heap (cells : Z) (rs : list loc) (h : gmap loc (list Z))
      : gmap loc (list Z) :=
  foldl (fun h r => alter (pad_line cells) r h) h rs.

(** The lines [show] passes to [fit_content]:
    [self.content[start_line:end_line + 1]] with [end_line] as [show]
    computes it. *)
Definition selected (self : Pageable.t (list loc)) : list loc :=
  let start_line := Pageable.page self * Pageable.rows self in
  let end_line :=
    Pageable.page self * Pageable.rows self + Pageable.rows self - 1 in
  let end_line :=
    if end_line >? Py.len (Pageable.content self) - 1
    then Py.len (Pageable.content self) - 1 else end_line in
  Py.slice (Pageable.content self) start_line (end_line + 1).


(** A BRF text made of the given lines, each ended by a newline, the last
    one only when [final_newline] is set. *)
Fixpoint brf_text (lines : list string) (final_newline : bool) : string :=
  match lines with
  | [] => EmptyString
  | [l] => if final_newline then l +:+ String Os.newline EmptyString else l
  | l :: ls => l +:+ String Os.newline (brf_text ls final_newline)
  end.

(** The characters whose codes are the given integers. *)
Definition to_bytes (l : list Z) : string :=
  string_of_list_ascii (map (fun v => ascii_of_nat (Z.to_nat v)) l).


(** The line object behind a reference. *)
Definition line_at (h : gmap loc (list Z)) (r : loc) : list Z :=
  default [] (h !! r).

(** [a] does not come after [b] in the order of the sort keys. *)
Definition key_le {A} (key : A -> list ascii) (a b : A) : Prop :=
Py.chars_ltb (key b) (key a) = false.






End Spec.

(** ** Sample states *)

Module Sample.

Definition heap0 : gmap loc (list Z) :=
  {[ 0%nat := [1; 2]; 1%nat := [3; 4; 5; 6]; 2%nat := [7] ]}.

Definition world0 : world := mk_world heap0 ∅ [] [].

(** Three lines, the first object also used as the last line. *)
Definition pageable0 : Pageable.t (list loc) :=
  Pageable.mk (3, 2) 3 2 0 [0%nat; 1%nat; 2%nat; 0%nat] "lib/library.pkl".

(** The menu and the world [Menu.__init__] builds from an empty world,
    when refreshing the library does nothing and the address is
    10.0.0.7 (see [menu_init_sample]). *)
Definition menu_heap : gmap loc (list Z) :=
{[ 0%nat := Utility.alphas_to_pin_nums "refresh library";
   1%nat := Utility.alphas_to_pin_nums "shutdown";
   2%nat := Utility.alphas_to_pin_nums "ip: 10.0.0.7" ]}.

Definition menu_world : world := mk_world menu_heap ∅ [] [].

Definition menu0 : Menu.t :=
Menu.mk (Pageable.mk (40, 9) 40 9 0 [0%nat; 1%nat; 2%nat] "menu.pkl")
  [ Menu.mk_item "refresh library" (Menu.refresh (Py.ret tt));
    Menu.mk_item "shutdown" Menu.shutdown;
    Menu.mk_item "ip: 10.0.0.7" Menu.ignore ].

(** A library of three books shown two a page, open at its second page;
    the second definition is of a type other than native. *)
Definition book_defs0 : list book_def :=
  [ mk_book_def "alice" "lib/alice.canute" "native";
    mk_book_def "bleak house" "lib/bleak house.pef" "pef";
    mk_book_def "emma" "lib/emma.canute" "native" ].

Definition heap1 : gmap loc (list Z) :=
  {[ 0%nat := Utility.alphas_to_pin_nums "alice";
     1%nat := Utility.alphas_to_pin_nums "bleak house";
     2%nat := Utility.alphas_to_pin_nums "emma" ]}.

Definition world1 : world :=
  mk_world heap1
    {[ "lib/book_defs.pkl"%string := PickleFile (PBookDefs book_defs0);
       "lib/library.pkl"%string := PickleFile (PState 1);
       "lib/alice.canute"%string := RawFile "abc";
       "lib/emma.canute"%string := RawFile "def";
       "lib/emma.pkl"%string := PickleFile (PState 4) ]}
    [] [].

Definition library0 : Library.t :=
  Library.mk
    (Pageable.mk (3, 2) 3 2 1 [0%nat; 1%nat; 2%nat] "lib/library.pkl")
    (mk_config "lib/") "lib/" "lib/book_defs.pkl" book_defs0.


(** A world holding a BRF file of two lines of three characters. *)
Definition world2 : world :=
  mk_world heap1
    {[ "usb/tale.brf"%string :=
         RawFile (Spec.brf_text ["ABC"; "K2L"]%string true) ]}
    [] [].

(** Two backends that record each call in a common journal; the
    emulated one answers the argument plus one, the Pi always answers 0. *)
Definition emulated0 (name : string) : option (Z -> M (list string) Z) :=
  Some (fun a journal => (Ok (a + 1), journal ++ ["emulated." +:+ name])).

Definition pi0 (name : string) : option (Z -> M (list string) Z) :=
  Some (fun a journal => (Ok 0, journal ++ ["pi." +:+ name])).

Definition Driver_methods0 : list string :=
  ["__init__"; "get_rows"; "send_error_sound"; "get_buttons"; "get_rows"].

Definition defined_methods0 : list string :=
  ["__init__"; "__exit__"; "__enter__"].

End Sample.

(** * Properties *)

(** ** utility.py *)

Section UtilityFacts.
Import Utility.

Lemma take_dot_code (w : Z) (i : nat) (c : Z) (pins : list Z) (n : Z) :
  take_dot w i (c, pins, n) =
  if c >=? w then (c - w, <[i := 1]> pins, n + w) else (c, pins, n).
Proof. reflexivity. Qed.

(** The greedy decomposition saturates: from a code point at or above
    U+2800 it yields the offset when that is at most 63, and 63 beyond. *)
Lemma unicode_to_pin_num_min (c : unichar) :
  0x2800 <= ord c -> unicode_to_pin_num c = Z.min (ord c - 0x2800) 63.
Proof.
  unfold unicode_to_pin_num, ord. intros Hc.
  repeat (rewrite take_dot_code;
          match goal with |- context [?a >=? ?b] =>
            destruct (Z.geb_spec a b) end);
    cbn; lia.
Qed.

Lemma low6_small (k : Z) : 0 <= k <= 63 -> Z.land k 63 = k.
Proof.
  intros Hk. change 63 with (Z.ones 6).
  rewrite Z.land_ones by lia. apply Z.mod_small. lia.
Qed.

(** C4 (as amended): for a code point from U+2800 on, [unicode_to_pin_num]
    is the offset from U+2800 capped at 63, a value in [0, 63]; for the
    offsets [k] in [0, 63] it equals [k], the low six bits of the offset. *)
Theorem unicode_to_pin_num_spec (c : unichar) :
  0x2800 <= ord c ->
  unicode_to_pin_num c = Z.min (ord c - 0x2800) 63 /\
  0 <= unicode_to_pin_num c <= 63 /\
  (ord c - 0x2800 <= 63 ->
   unicode_to_pin_num c = ord c - 0x2800 /\
   unicode_to_pin_num c = Z.land (ord c - 0x2800) 63).
Proof.
  intros Hc. rewrite (unicode_to_pin_num_min c Hc).
  split; [reflexivity | split; [lia |]].
  intros Hk. rewrite low6_small by lia. lia.
Qed.

Lemma unicode_to_pin_num_spec_witness :
  unicode_to_pin_num 0x2825 = Z.min (ord 0x2825 - 0x2800) 63 /\
  0 <= unicode_to_pin_num 0x2825 <= 63 /\
  (ord 0x2825 - 0x2800 <= 63 ->
   unicode_to_pin_num 0x2825 = ord 0x2825 - 0x2800 /\
   unicode_to_pin_num 0x2825 = Z.land (ord 0x2825 - 0x2800) 63).
Proof. apply (unicode_to_pin_num_spec 0x2825). vm_compute. discriminate. Defined.

(** C4 (as stated) fails at U+2840, BRAILLE PATTERN DOTS-7: the low six
    bits of the offset 64 are 0, the function returns 63. *)
Lemma unicode_to_pin_num_not_low6 :
  0x2800 <= ord 0x2840 /\
  unicode_to_pin_num 0x2840 = 63 /\
  Z.land (ord 0x2840 - 0x2800) 63 = 0 /\
  unicode_to_pin_num 0x2840 <> Z.land (ord 0x2840 - 0x2800) 63.
Proof. vm_compute. repeat split; discriminate. Qed.

(** [index] finds the first position holding the character, and fails
    only when the character does not occur. *)
Lemma index_lt (s : list ascii) (c : ascii) (i : nat) :
  index s c = Some i -> (i < length s)%nat.
Proof.
  revert i. induction s as [|x s IH]; intros i; simpl; [discriminate |].
  destruct (decide (x = c)); [intros [= <-]; lia |].
  destruct (index s c) as [k|]; simpl; [| discriminate].
  intros [= <-]. specialize (IH k eq_refl). lia.
Qed.

Lemma alpha_to_pin_num_range (ch : ascii) : 0 <= alpha_to_pin_num ch <= 63.
Proof.
  unfold alpha_to_pin_num.
  destruct (index (list_ascii_of_string mapping) (upper ch)) as [i|] eqn:Hi;
    [| lia].
  apply index_lt in Hi. change (length (list_ascii_of_string mapping))
    with 64%nat in Hi. lia.
Qed.

Lemma index_Some (s : list ascii) (c : ascii) (i : nat) :
  index s c = Some i ->
  s !! i = Some c /\ forall j, (j < i)%nat -> s !! j <> Some c.
Proof.
  revert i. induction s as [|x s IH]; intros i; simpl; [discriminate |].
  destruct (decide (x = c)) as [->|Hne].
  - intros [= <-]. split; [reflexivity | intros j Hj; lia].
  - destruct (index s c) as [k|] eqn:Hk; simpl; [|discriminate].
    intros [= <-]. destruct (IH k eq_refl) as [Hat Hfirst].
    split; [exact Hat |].
    intros [|j] Hj; simpl; [congruence | apply Hfirst; lia].
Qed.

Lemma index_None (s : list ascii) (c : ascii) :
  index s c = None -> c ∉ s.
Proof.
  induction s as [|x s IH]; simpl; intros H.
  - apply not_elem_of_nil.
  - destruct (decide (x = c)) as [->|Hne]; [discriminate |].
    destruct (index s c); [discriminate |].
    apply not_elem_of_cons. split; [congruence | auto].
Qed.

Lemma mapping_length : length (list_ascii_of_string mapping) = 64%nat.
Proof. reflexivity. Qed.

Lemma mapping_NoDup : NoDup (list_ascii_of_string mapping).
Proof.
  apply (bool_decide_unpack (NoDup (list_ascii_of_string mapping))).
  vm_compute. exact I.
Qed.

(** C5: when the uppercase form of [ch] occurs in the 64-character table
    (whose characters are pairwise distinct), [alpha_to_pin_num ch] is the
    position of that form in the table, a value in [0, 63]; when it does
    not occur, the result is 0. *)
Theorem alpha_to_pin_num_spec (ch : ascii) :
  let table := list_ascii_of_string mapping in
  length table = 64%nat /\ NoDup table /\
  (upper ch ∈ table ->
   exists i : nat,
     table !! i = Some (upper ch) /\
     alpha_to_pin_num ch = Z.of_nat i /\
     0 <= alpha_to_pin_num ch <= 63) /\
  (upper ch ∉ table -> alpha_to_pin_num ch = 0).
Proof.
  intros table.
  split; [exact mapping_length | split; [exact mapping_NoDup |]].
  unfold alpha_to_pin_num. fold table.
  destruct (index table (upper ch)) as [i|] eqn:Hi.
  - destruct (index_Some _ _ _ Hi) as [Hat _].
    split.
    + intros _. exists i. split; [exact Hat | split; [reflexivity |]].
      apply lookup_lt_Some in Hat. pose proof mapping_length. fold table in H.
      lia.
    + intros Hnot. exfalso. apply Hnot.
      apply list_elem_of_lookup. eauto.
  - split; [| reflexivity].
    intros Hin. exfalso. exact (index_None _ _ Hi Hin).
Qed.

Lemma alpha_to_pin_num_spec_witness :
  (exists i : nat,
     list_ascii_of_string mapping !! i = Some (upper "k") /\
     alpha_to_pin_num "k" = Z.of_nat i /\
     0 <= alpha_to_pin_num "k" <= 63) /\
  alpha_to_pin_num "~" = 0.
Proof.
  split.
  - apply (alpha_to_pin_num_spec "k").
    apply list_elem_of_lookup. exists 5%nat. reflexivity.
  - apply (alpha_to_pin_num_spec "~").
    exact (index_None (list_ascii_of_string mapping) (upper "~") eq_refl).
Defined.

End UtilityFacts.

(** ** Pageable: navigation *)

Section Navigation.
Import Pageable.

Lemma get_num_pages_run (self : t (list loc)) (w : world) :
  get_num_pages (self, w) =
  if rows self =? 0 then (Raise ZeroDivisionError, (self, w))
  else (Ok (Py.ceil_div (Py.len (content self)) (rows self)), (self, w)).
Proof.
  unfold get_num_pages, Py.bind, self_, Py.gets. simpl.
  destruct (rows self =? 0); reflexivity.
Qed.

Lemma get_num_pages_Ok (self : t (list loc)) (w : world) (n : Z) :
  fst (get_num_pages (self, w)) = Ok n ->
  rows self <> 0 /\ n = Py.ceil_div (Py.len (content self)) (rows self) /\
  get_num_pages (self, w) = (Ok n, (self, w)).
Proof.
  rewrite get_num_pages_run.
  destruct (Z.eqb_spec (rows self) 0) as [H0|H0]; simpl; [discriminate |].
  intros [= <-]. auto.
Qed.

Lemma set_page_same {C} (self : t C) : set_page (page self) self = self.
Proof. destruct self; reflexivity. Qed.

Lemma home_run {C} (self : t C) (w : world) :
  home (self, w) = (Ok tt, (set_page 0 self, w)).
Proof.
  unfold home, Py.bind, self_, Py.gets; simpl.
  destruct (Z.eqb_spec (page self) 0) as [H0|H0]; simpl; [| reflexivity].
  unfold Py.ret. rewrite <- H0, set_page_same. reflexivity.
Qed.

Lemma prev_run {C} (self : t C) (w : world) :
  prev (self, w) =
  (Ok tt, (set_page (if page self >? 0 then page self - 1 else page self)
                    self, w)).
Proof.
  unfold prev, Py.bind, self_, Py.gets; simpl.
  destruct (page self >? 0); simpl; [reflexivity |].
  unfold Py.ret. rewrite set_page_same. reflexivity.
Qed.

Lemma next_run (self : t (list loc)) (w : world) (n : Z) :
  fst (get_num_pages (self, w)) = Ok n ->
  next (self, w) =
  (Ok tt, (set_page (if page self <? n - 1 then page self + 1 else page self)
                    self, w)).
Proof.
  intros Hn. destruct (get_num_pages_Ok _ _ _ Hn) as (_ & _ & Hrun).
  unfold next, Py.bind at 1, self_, Py.gets; simpl.
  unfold Py.bind. rewrite Hrun.
  destruct (page self <? n - 1); simpl; [reflexivity |].
  unfold Py.ret. rewrite set_page_same. reflexivity.
Qed.

Lemma end_run (self : t (list loc)) (w : world) (n : Z) :
  fst (get_num_pages (self, w)) = Ok n ->
  end_ (self, w) =
  (Ok tt, (set_page (if n =? 0 then page self else n - 1) self, w)).
Proof.
  intros Hn. destruct (get_num_pages_Ok _ _ _ Hn) as (_ & _ & Hrun).
  unfold end_, Py.bind at 1, self_, Py.gets; simpl.
  unfold Py.bind at 1. rewrite Hrun.
  destruct (n =? 0); simpl.
  { unfold Py.ret. rewrite set_page_same. reflexivity. }
  unfold Py.bind at 1. rewrite Hrun.
  destruct (Z.eqb_spec (page self) (n - 1)) as [He|He]; simpl.
  { unfold Py.ret. rewrite <- He, set_page_same. reflexivity. }
  unfold Py.bind. rewrite Hrun. reflexivity.
Qed.

Lemma ceil_div_0 (b : Z) : Py.ceil_div 0 b = 0.
Proof. unfold Py.ceil_div. simpl. rewrite Zdiv_0_l. reflexivity. Qed.

(** C2: from a page index inside [0, numPages - 1] (0 when numPages is
    0), each of home, prev, next and end returns normally, changes nothing
    but the page index, and leaves it inside the same range; at page 0
    home and prev change nothing, at the last page next and end change
    nothing, and on empty content numPages is 0 and none of the four
    changes anything. *)
Theorem navigation_keeps_page_in_range (self : t (list loc)) (w : world)
    (n : Z) :
  fst (get_num_pages (self, w)) = Ok n ->
  Spec.page_ok (page self) n ->
  Forall (fun op : M (state (list loc)) unit =>
            exists pg, op (self, w) = (Ok tt, (set_page pg self, w)) /\
                       Spec.page_ok pg n /\
                       fst (get_num_pages (set_page pg self, w)) = Ok n)
         [home; prev; next; end_] /\
  (page self = 0 ->
   home (self, w) = (Ok tt, (self, w)) /\
   prev (self, w) = (Ok tt, (self, w))) /\
  (page self = n - 1 ->
   next (self, w) = (Ok tt, (self, w)) /\
   end_ (self, w) = (Ok tt, (self, w))) /\
  (content self = [] ->
   n = 0 /\
   Forall (fun op : M (state (list loc)) unit =>
             op (self, w) = (Ok tt, (self, w)))
          [home; prev; next; end_]).
Proof.
  intros Hn Hok.
  destruct (get_num_pages_Ok _ _ _ Hn) as (Hrows & Hceil & _).
  assert (Hkeep : forall pg, fst (get_num_pages (set_page pg self, w)) = Ok n).
  { intros pg. rewrite get_num_pages_run. simpl.
    destruct (Z.eqb_spec (rows self) 0); [contradiction |].
    simpl. congruence. }
  unfold Spec.page_ok in *.
  split; [| split; [| split]].
  - repeat apply Forall_cons_2; [| | | | apply Forall_nil_2]; cbv beta;
      rewrite ?home_run, ?prev_run, ?(next_run _ _ _ Hn), ?(end_run _ _ _ Hn);
      eexists; (split; [reflexivity | split; [| apply Hkeep]]).
    + lia.
    + destruct (Z.gtb_spec (page self) 0); lia.
    + destruct (Z.ltb_spec (page self) (n - 1)); lia.
    + destruct (Z.eqb_spec n 0); lia.
  - intros H0. rewrite home_run, prev_run, H0. simpl.
    rewrite <- H0, set_page_same. auto.
  - intros Hlast. rewrite (next_run _ _ _ Hn), (end_run _ _ _ Hn).
    rewrite Hlast, Z.ltb_irrefl.
    destruct (Z.eqb_spec n 0); rewrite <- ?Hlast, set_page_same; auto.
  - intros Hnil. rewrite Hnil in Hceil. rewrite ceil_div_0 in Hceil.
    split; [exact Hceil |].
    assert (Hp : page self = 0) by lia.
    repeat apply Forall_cons_2; [| | | | apply Forall_nil_2]; cbv beta;
      rewrite ?home_run, ?prev_run, ?(next_run _ _ _ Hn), ?(end_run _ _ _ Hn);
      rewrite ?Hp, ?Hceil; simpl; rewrite <- Hp, set_page_same; reflexivity.
Qed.

Lemma navigation_keeps_page_in_range_witness :
  Forall (fun op : M (state (list loc)) unit =>
            exists pg,
              op (Sample.pageable0, Sample.world0) =
              (Ok tt, (set_page pg Sample.pageable0, Sample.world0)) /\
              Spec.page_ok pg 2 /\
              fst (get_num_pages (set_page pg Sample.pageable0, Sample.world0))
              = Ok 2)
         [home; prev; next; end_].
Proof.
  apply (navigation_keeps_page_in_range Sample.pageable0 Sample.world0 2).
  - reflexivity.
  - left. simpl. lia.
Defined.

End Navigation.

(** ** Pageable: show and fit_content *)

(** Case analysis on the comparisons of a slice bound. *)
Ltac slice_cases :=
  unfold Py.slice_bound;
  repeat match goal with
         | |- context [?a <? ?b] => destruct (Z.ltb_spec a b)
         | |- context [?a >? ?b] => destruct (Z.gtb_spec a b)
         end.

Section Show.
Import Pageable.

Lemma set_heap_same (w : world) : set_heap (heap w) w = w.
Proof. destruct w; reflexivity. Qed.

Lemma set_heap_twice (h h' : gmap loc (list Z)) (w : world) :
  set_heap h (set_heap h' w) = set_heap h w.
Proof. reflexivity. Qed.

Lemma deref_run (r : loc) (w : world) (l : list Z) :
  heap w !! r = Some l -> deref r w = (Ok l, w).
Proof. unfold deref. intros ->. reflexivity. Qed.

Lemma append_run (r : loc) (x : Z) (w : world) (l : list Z) :
  heap w !! r = Some l ->
  append r x w = (Ok tt, set_heap (<[r := l ++ [x]]> (heap w)) w).
Proof.
  intros H. unfold append, Py.bind. rewrite (deref_run _ _ _ H). reflexivity.
Qed.

Lemma len_app {A} (l k : list A) : Py.len (l ++ k) = Py.len l + Py.len k.
Proof. unfold Py.len. rewrite length_app. lia. Qed.

Lemma len_nonneg {A} (l : list A) : 0 <= Py.len l.
Proof. unfold Py.len. lia. Qed.

Lemma pad_line_long (cells : Z) (l : list Z) :
  cells <= Py.len l -> Spec.pad_line cells l = l.
Proof.
  intros H. unfold Spec.pad_line.
  replace (Z.to_nat (cells - Py.len l)) with 0%nat by lia.
  apply app_nil_r.
Qed.

Lemma pad_line_step (cells : Z) (l : list Z) :
  Py.len l < cells -> Spec.pad_line cells (l ++ [0]) = Spec.pad_line cells l.
Proof.
  intros H. unfold Spec.pad_line. rewrite len_app. change (Py.len [0]) with 1.
  replace (Z.to_nat (cells - Py.len l))
    with (S (Z.to_nat (cells - (Py.len l + 1)))) by lia.
  rewrite <- app_assoc. reflexivity.
Qed.

Lemma pad_line_len (cells : Z) (l : list Z) :
  Py.len (Spec.pad_line cells l) = Z.max cells (Py.len l).
Proof.
  unfold Spec.pad_line. rewrite len_app. unfold Py.len at 2.
  rewrite length_replicate. pose proof (len_nonneg l). lia.
Qed.

Lemma pad_line_idem (cells : Z) (l : list Z) :
  Spec.pad_line cells (Spec.pad_line cells l) = Spec.pad_line cells l.
Proof. apply pad_line_long. rewrite pad_line_len. lia. Qed.

(** The [while] loop stops on its condition: with at least
    [cells - len(line)] iterations allowed it leaves the line padded to
    [cells] values, in place. *)
Lemma while_append_run (fuel : nat) (cells : Z) (r : loc) :
  forall (w : world) (l : list Z),
    heap w !! r = Some l ->
    cells - Py.len l <= Z.of_nat fuel ->
    while_append fuel cells r w =
    (Ok tt, set_heap (<[r := Spec.pad_line cells l]> (heap w)) w).
Proof.
  induction fuel as [|fuel IH]; intros w l Hl Hfuel; simpl.
  - rewrite pad_line_long by lia.
    rewrite (insert_id _ _ _ Hl), set_heap_same. reflexivity.
  - unfold Py.bind at 1. rewrite (deref_run _ _ _ Hl).
    destruct (Z.ltb_spec (Py.len l) cells) as [Hlt|Hge].
    + unfold Py.bind. rewrite (append_run _ _ _ _ Hl).
      rewrite (IH _ (l ++ [0])).
      * simpl. rewrite insert_insert_eq, pad_line_step by lia. reflexivity.
      * simpl. apply lookup_insert_eq.
      * rewrite len_app. change (Py.len [0]) with 1. lia.
    + rewrite pad_line_long by lia.
      rewrite (insert_id _ _ _ Hl), set_heap_same. reflexivity.
Qed.

Lemma insert_as_alter (h : gmap loc (list Z)) (r : loc) (l : list Z)
    (f : list Z -> list Z) :
  h !! r = Some l -> <[r := f l]> h = alter f r h.
Proof.
  intros H. apply map_eq. intros i. rewrite lookup_alter, lookup_insert.
  destruct (decide (r = i)) as [->|]; [rewrite H |]; reflexivity.
Qed.

Lemma fitted_pad (cells : Z) (l : list Z) :
  Spec.fitted cells (Spec.pad_line cells l) = Spec.fitted cells l.
Proof. unfold Spec.fitted. rewrite pad_line_idem. reflexivity. Qed.



Lemma fitted_after_pad (h : gmap loc (list Z)) (r r' : loc) (l : list Z)
    (cells : Z) :
  h !! r = Some l ->
  Spec.fitted cells (Spec.line_at (<[r := Spec.pad_line cells l]> h) r') =
  Spec.fitted cells (Spec.line_at h r').
Proof.
  intros H. unfold Spec.line_at.
  destruct (decide (r = r')) as [<-|Hne].
  - rewrite lookup_insert_eq, H. simpl. apply fitted_pad.
  - rewrite lookup_insert_ne by exact Hne. reflexivity.
Qed.

(** The loop of [fit_content] over valid references: it returns the
    fitted lines after those already collected and leaves every one of the
    line objects padded in the heap. *)
Lemma fit_lines_run (cells : Z) (content : list loc) :
  forall (w : world) (acc : list (list Z)),
    (forall r, r ∈ content -> is_Some (heap w !! r)) ->
    fit_lines cells content acc w =
    (Ok (acc ++ map (fun r => Spec.fitted cells (Spec.line_at (heap w) r))
                    content),
     set_heap (Spec.pad_heap cells content (heap w)) w).
Proof.
  induction content as [|r rest IH]; intros w acc Hv; simpl.
  - unfold Py.ret, Spec.pad_heap. simpl.
    rewrite app_nil_r, set_heap_same. reflexivity.
  - destruct (Hv r) as [l Hl]; [left |].
    unfold Py.bind at 1.
    rewrite (while_append_run _ _ _ _ l Hl)
      by (pose proof (len_nonneg l); lia).
    set (w1 := set_heap (<[r := Spec.pad_line cells l]> (heap w)) w).
    assert (H1 : heap w1 !! r = Some (Spec.pad_line cells l))
      by (simpl; apply lookup_insert_eq).
    unfold Py.bind at 1. rewrite (deref_run _ _ _ H1).
    rewrite IH.
    + f_equal.
      * f_equal. rewrite <- app_assoc. simpl. f_equal. f_equal.
        { unfold Spec.line_at. rewrite Hl. reflexivity. }
        apply map_ext. intros r'. simpl. apply fitted_after_pad. exact Hl.
      * subst w1. simpl. rewrite set_heap_twice.
        rewrite (insert_as_alter _ _ _ _ Hl). reflexivity.
    + intros r' Hr'. subst w1. simpl.
      destruct (decide (r = r')) as [<-|Hne].
      * rewrite lookup_insert_eq. eauto.
      * rewrite lookup_insert_ne by exact Hne. apply Hv. right. exact Hr'.
Qed.

Lemma fit_content_run (self : t (list loc)) (w : world) (sel : list loc) :
  (forall r, r ∈ sel -> is_Some (heap w !! r)) ->
  fit_content sel (self, w) =
  (Ok (map (fun r => Spec.fitted (cells self) (Spec.line_at (heap w) r)) sel
       ++ [Py.repeat (Py.repeat [0] (cells self)) (rows self - Py.len sel)]),
   (self, set_heap (Spec.pad_heap (cells self) sel (heap w)) w)).
Proof.
  intros Hv. unfold fit_content, Py.bind at 1, self_, Py.gets. simpl.
  unfold Py.bind, in_world. simpl.
  rewrite (fit_lines_run _ _ _ _ Hv). simpl.
  unfold Py.ret, Py.len. rewrite length_map. reflexivity.
Qed.

(** [show] on a state whose selected references are valid: the page
    returned and the state left behind. *)
Lemma show_run (self : t (list loc)) (w : world) :
  rows self <> 0 ->
  (forall r, r ∈ Spec.selected self -> is_Some (heap w !! r)) ->
  show (self, w) =
  (Ok (concat (map (fun r => Spec.fitted (cells self)
                                (Spec.line_at (heap w) r))
                   (Spec.selected self))
       ++ Py.repeat (Py.repeat [0] (cells self))
                    (rows self - Py.len (Spec.selected self))),
   (self,
    set_fs (<[state_file self := PickleFile (PState (page self))]> (fs w))
           (set_heap (Spec.pad_heap (cells self) (Spec.selected self) (heap w))
                     w))).
Proof.
  intros Hrows Hv. unfold show, Py.bind at 1, self_, Py.gets. simpl.
  unfold Py.bind at 1. rewrite get_num_pages_run.
  destruct (Z.eqb_spec (rows self) 0) as [|_]; [contradiction |].
  fold (Spec.selected self).
  unfold Py.bind at 1. rewrite (fit_content_run _ _ _ Hv).
  unfold Py.bind, save_state, self_, Py.gets, in_world, write_file,
    Py.modify, Py.ret. simpl.
  rewrite concat_app. simpl. rewrite app_nil_r. reflexivity.
Qed.

Lemma slice_subseteq {A} (l : list A) (i j : Z) : Py.slice l i j ⊆ l.
Proof.
  unfold Py.slice. etrans; [apply subseteq_take | apply subseteq_drop].
Qed.


(** Clamping [end_line] to the last line does not change the slice. *)
Lemma selected_slice (self : t (list loc)) :
  rows self > 0 ->
  Spec.selected self =
  Py.slice (content self) (page self * rows self)
           (page self * rows self + rows self).
Proof.
  intros Hrows. unfold Spec.selected, Py.slice.
  pose proof (len_nonneg (content self)) as Hl.
  set (n := Py.len (content self)) in *.
  set (s := page self * rows self) in *.
  clearbody n s.
  destruct (Z.gtb_spec (s + rows self - 1) (n - 1)).
  - f_equal. f_equal. slice_cases; lia.
  - replace (s + rows self - 1 + 1) with (s + rows self) by lia. reflexivity.
Qed.



Lemma concat_replicate_singleton {A} (n : nat) (x : A) :
  concat (replicate n [x]) = replicate n x.
Proof. induction n as [|n IH]; simpl; [| rewrite IH]; reflexivity. Qed.




Lemma pad_heap_lookup (cells : Z) (rs : list loc) :
  forall (h : gmap loc (list Z)) (r : loc),
    Spec.pad_heap cells rs h !! r =
    if decide (r ∈ rs) then Spec.pad_line cells <$> h !! r else h !! r.
Proof.
  induction rs as [|a rs IH]; intros h r.
  - simpl. destruct (decide (r ∈ [])) as [Hin|_]; [| reflexivity].
    apply elem_of_nil in Hin. contradiction.
  - change (Spec.pad_heap cells (a :: rs) h)
      with (Spec.pad_heap cells rs (alter (Spec.pad_line cells) a h)).
    rewrite IH, lookup_alter.
    destruct (decide (a = r)) as [->|Hne].
    + destruct (decide (r ∈ r :: rs)) as [_|Hn]; [| exfalso; apply Hn; left].
      destruct (decide (r ∈ rs)); [| reflexivity].
      destruct (h !! r); simpl; [rewrite pad_line_idem |]; reflexivity.
    + destruct (decide (r ∈ rs)) as [Hin|Hnin];
        destruct (decide (r ∈ a :: rs)) as [Hin'|Hnin']; try reflexivity.
      * exfalso. apply Hnin'. right. exact Hin.
      * exfalso. apply elem_of_cons in Hin'. destruct Hin'; congruence.
Qed.



(** C10: [show] pads the stored lines in place.  A line object on the
    current page that is shorter than [cells] holds, once [show] has
    returned, its old values followed by zeros up to length [cells]; the
    object is still the one [self.content] refers to, so the heap has
    changed, and line objects off the page are left as they were. *)
Theorem show_pads_content_in_place (self : t (list loc)) (w : world)
    (r : loc) (l : list Z) :
  rows self > 0 ->
  (forall r, r ∈ content self -> is_Some (heap w !! r)) ->
  r ∈ Py.slice (content self) (page self * rows self)
               (page self * rows self + rows self) ->
  heap w !! r = Some l ->
  Py.len l < cells self ->
  exists (out : list Z) (w' : world),
    show (self, w) = (Ok out, (self, w')) /\
    r ∈ content self /\
    heap w' !! r =
      Some (l ++ replicate (Z.to_nat (cells self - Py.len l)) 0) /\
    Py.len (Spec.line_at (heap w') r) = cells self /\
    heap w' <> heap w /\
    (forall r', r' ∉ Py.slice (content self) (page self * rows self)
                              (page self * rows self + rows self) ->
                heap w' !! r' = heap w !! r').
Proof.
  intros Hrows Hvalid Hr Hl Hshort.
  assert (Hsel : Spec.selected self =
                 Py.slice (content self) (page self * rows self)
                          (page self * rows self + rows self))
    by (apply selected_slice; exact Hrows).
  assert (Hv : forall r, r ∈ Spec.selected self -> is_Some (heap w !! r)).
  { intros r0 Hr0. apply Hvalid. rewrite Hsel in Hr0.
    exact (slice_subseteq _ _ _ _ Hr0). }
  assert (Hnew : Spec.pad_heap (cells self) (Spec.selected self) (heap w) !! r
                 = Some (Spec.pad_line (cells self) l)).
  { rewrite pad_heap_lookup, Hsel.
    destruct (decide (r ∈ _)) as [_|Hn]; [| contradiction].
    rewrite Hl. reflexivity. }
  eexists. eexists.
  split; [rewrite (show_run self w) by (lia || exact Hv); reflexivity |].
  simpl heap.
  split; [exact (slice_subseteq _ _ _ _ Hr) |].
  split; [exact Hnew |].
  split; [| split].
  - unfold Spec.line_at. rewrite Hnew. simpl. rewrite pad_line_len. lia.
  - intros Heq. rewrite Heq, Hl in Hnew. injection Hnew as Hsame.
    apply (f_equal Py.len) in Hsame. rewrite pad_line_len in Hsame. lia.
  - intros r' Hr'. rewrite pad_heap_lookup, Hsel.
    destruct (decide (r' ∈ _)); [contradiction | reflexivity].
Qed.

Lemma show_pads_content_in_place_witness :
  exists (out : list Z) (w' : world),
    show (Sample.pageable0, Sample.world0) = (Ok out, (Sample.pageable0, w')) /\
    heap Sample.world0 !! 0%nat = Some [1; 2] /\
    heap w' !! 0%nat = Some [1; 2; 0] /\
    heap w' <> heap Sample.world0.
Proof.
  destruct (show_pads_content_in_place Sample.pageable0 Sample.world0
              0%nat [1; 2])
    as (out & w' & Hshow & _ & Hnew & _ & Hne & _).
  - reflexivity.
  - intros r Hr. vm_compute in Hr.
    repeat (apply elem_of_cons in Hr; destruct Hr as [->|Hr]);
      try (vm_compute; eauto).
    apply elem_of_nil in Hr. contradiction.
  - vm_compute. left.
  - reflexivity.
  - reflexivity.
  - exists out, w'. repeat split; [exact Hshow | exact Hnew | exact Hne].
Defined.

(** The first page of the sample content, whose first and last lines are
    the same object: two lines of three pins, the short one padded. *)
Example show_sample :
  fst (show (Sample.pageable0, Sample.world0)) = Ok [1; 2; 0; 3; 4; 5] /\
  fst (show (set_page 1 Sample.pageable0, Sample.world0))
  = Ok [7; 0; 0; 1; 2; 0] /\
  fst (show (set_page 2 Sample.pageable0, Sample.world0))
  = Ok [0; 0; 0; 0; 0; 0] /\
  fst (show (set_page (-1) Sample.pageable0, Sample.world0))
  = Ok [0; 0; 0; 0; 0; 0] /\
  fst (show (set_page (-2) Sample.pageable0, Sample.world0))
  = Ok [1; 2; 0; 3; 4; 5].
Proof. vm_compute. repeat split; reflexivity. Qed.

End Show.

(** ** Menu.option *)

Section MenuFacts.

Lemma getitem_None {A} (l : list A) (i : Z) :
  Py.getitem l i = None <-> i < - Py.len l \/ Py.len l <= i.
Proof.
  unfold Py.getitem, Py.len.
  destruct (Z.ltb_spec i 0) as [Hneg|Hpos].
  - destruct (Z.ltb_spec (i + Z.of_nat (length l)) 0) as [Hlow|Hin].
    + split; [intros _; lia | reflexivity].
    + rewrite lookup_ge_None. lia.
  - rewrite lookup_ge_None. lia.
Qed.

Lemma getitem_nonneg {A} (l : list A) (i : Z) :
  0 <= i -> Py.getitem l i = l !! Z.to_nat i.
Proof.
  intros Hi. unfold Py.getitem.
  destruct (Z.ltb_spec i 0); [lia | reflexivity].
Qed.

(** C6: when the absolute index [number + page * rows] is out of range of
    the menu entries (an index for which Python's subscript raises
    IndexError: at or beyond the number of entries, or below its
    negation), [option] returns normally and the driver receives exactly
    one more call, [send_error_sound], nothing else changing; when the
    index is in range, [option] runs the action of the entry at that
    index (an IndexError escaping the action is answered the same way,
    any other outcome of the action is the outcome of [option]). *)
Theorem option_runs_entry_or_signals (self : Menu.t) (number : Z) (w : world) :
  let menu_num :=
    number + Pageable.page (Menu.base self) * Pageable.rows (Menu.base self) in
  let n := Py.len (Menu.menu self) in
  ((menu_num < - n \/ n <= menu_num) ->
   Menu.option self number w = (Ok tt, add_driver_call send_error_sound w) /\
   driver_calls (snd (Menu.option self number w)) =
     driver_calls w ++ [send_error_sound]) /\
  ((0 <= menu_num < n) ->
   exists it, Menu.menu self !! Z.to_nat menu_num = Some it /\
              Py.getitem (Menu.menu self) menu_num = Some it) /\
  (forall it, Py.getitem (Menu.menu self) menu_num = Some it ->
   Menu.option self number w =
   match Menu.action it w with
   | (Ok u, w') => (Ok u, w')
   | (Raise e, w') =>
       if Py.is_IndexError e
       then (Ok tt, add_driver_call send_error_sound w')
       else (Raise e, w')
   end).
Proof.
  intros menu_num n. unfold Menu.option. fold menu_num.
  split; [| split].
  - intros Hout. apply getitem_None in Hout.
    unfold Py.try_except. rewrite Hout. simpl. auto.
  - intros Hin. rewrite getitem_nonneg by lia.
    destruct (Menu.menu self !! Z.to_nat menu_num) as [it|] eqn:Hit; [eauto |].
    apply lookup_ge_None in Hit. unfold n, Py.len in Hin. lia.
  - intros it Hit. unfold Py.try_except. rewrite Hit.
    destruct (Menu.action it w) as [[u|e] w']; reflexivity.
Qed.

Lemma option_runs_entry_or_signals_witness :
  (Menu.option Sample.menu0 3 Sample.menu_world =
     (Ok tt, add_driver_call send_error_sound Sample.menu_world) /\
   driver_calls (snd (Menu.option Sample.menu0 3 Sample.menu_world)) =
     driver_calls Sample.menu_world ++ [send_error_sound]) /\
  (exists it, Menu.menu Sample.menu0 !! Z.to_nat (1 + 0 * 9) = Some it /\
              Py.getitem (Menu.menu Sample.menu0) (1 + 0 * 9) = Some it).
Proof.
  split.
  - apply (option_runs_entry_or_signals Sample.menu0 3 Sample.menu_world).
    right. vm_compute. discriminate.
  - apply (option_runs_entry_or_signals Sample.menu0 1 Sample.menu_world).
    vm_compute. split; [discriminate | reflexivity].
Defined.

(** The sample menu is the one the constructor builds. *)
Example menu_init_sample :
  Menu.init (Py.ret tt) "10.0.0.7" (40, 9) (mk_world ∅ ∅ [] []) =
  (Ok Sample.menu0, Sample.menu_world).
Proof. vm_compute. reflexivity. Qed.

(** Selecting the second entry of the sample menu shuts down: the page
    is cleared, then the system command is issued. *)
Example menu_option_shutdown :
  Menu.option Sample.menu0 1 Sample.menu_world =
  (Ok tt, add_os_call "sudo shutdown -h now"
            (add_driver_call clear_page Sample.menu_world)).
Proof. reflexivity. Qed.

End MenuFacts.

(** ** Library.get_book and Library.add_book *)

Section LibraryFacts.

Lemma load_state_run {C} (self : Pageable.t C) (w : world) :
  Pageable.load_state (self, w) =
  match fs w !! Pageable.state_file self with
  | None => (Ok tt, (self, w))
  | Some (PickleFile (PState p)) => (Ok tt, (Pageable.set_page p self, w))
  | Some (PickleFile (PBookDefs _)) => (Raise TypeError, (self, w))
  | Some (RawFile _) => (Raise UnpicklingError, (self, w))
  end.
Proof.
  unfold Pageable.load_state, Py.bind at 1, Pageable.self_, Py.gets. simpl.
  unfold Py.try_except, Py.bind, Pageable.in_world, read_file. simpl.
  destruct (fs w !! Pageable.state_file self) as [[d|[p|ds]]|]; reflexivity.
Qed.






(** C8: for a path whose extension is none of [.pef], [.brf] and
    [.canute], [add_book] raises PageableError and leaves the library
    object and the world as they were: the book definitions, the paged
    titles and the line objects, and every file, so that the persisted
    catalog is unchanged and no native file has been created. *)
Theorem add_book_unknown_format
    (minidom_rows : file -> option (list (option (list Utility.unichar))))
    (self : Library.t) (w : world)
    (book_file : string) (name : option string) (remove : bool) :
  let ext := snd (Os.splitext (Os.basename book_file)) in
  ext <> ".pef"%string ->
  ext <> ".brf"%string ->
  ext <> Library.native_ext ->
  exists msg (self' : Library.t) (w' : world),
    Library.add_book minidom_rows book_file name remove (self, w) =
      (Raise (PageableError msg), (self', w')) /\
    msg = ("book " +:+ book_file +:+ " in unknown format " +:+ ext)%string /\
    self' = self /\ w' = w /\
    Library.book_defs self' = Library.book_defs self /\
    Pageable.content (Library.base self') = Pageable.content (Library.base self) /\
    heap w' = heap w /\
    fs w' = fs w /\
    fs w' !! Library.book_defs_file self = fs w !! Library.book_defs_file self /\
    (forall path, fs w !! path = None -> fs w' !! path = None).
Proof.
  intros ext Hpef Hbrf Hnative.
  unfold Library.add_book, Py.bind at 1, Library.self_, Py.gets. simpl.
  destruct (Os.splitext (Os.basename book_file)) as [basename ext'] eqn:Hsplit.
  simpl in ext. subst ext.
  unfold Py.bind at 1.
  destruct (decide (ext' = ".pef"%string)); [contradiction |].
  destruct (decide (ext' = ".brf"%string)); [contradiction |].
  destruct (decide (ext' = Library.native_ext)); [contradiction |].
  simpl. eexists. exists self, w. repeat split; auto.
Qed.

Lemma add_book_unknown_format_witness :
  exists msg (self' : Library.t) (w' : world),
    Library.add_book (fun _ => None) "usb/notes.txt" None true
                     (Sample.library0, Sample.world1) =
      (Raise (PageableError msg), (self', w')) /\
    self' = Sample.library0 /\ w' = Sample.world1.
Proof.
  destruct (add_book_unknown_format (fun _ => None) Sample.library0
              Sample.world1 "usb/notes.txt" None true)
    as (msg & self' & w' & Hrun & _ & Hself & Hw & _).
  - vm_compute. discriminate.
  - vm_compute. discriminate.
  - vm_compute. discriminate.
  - exists msg, self', w'. auto.
Defined.

(** Adding a BRF book to the sample library: the book is converted, its
    source removed, the catalog re-sorted and saved, and the title line
    appended to the content. *)
Example add_book_brf_sample :
  let r := Library.add_book (fun _ => None) "usb/tale.brf" None true
                            (Sample.library0, Sample.world2) in
  fst r = Ok tt /\
  map title (Library.book_defs (fst (snd r))) =
    ["alice"; "bleak house"; "emma"; "tale"]%string /\
  Pageable.content (Library.base (fst (snd r))) = [0; 1; 2; 3]%nat /\
  heap (snd (snd r)) !! 3%nat = Some [30; 1; 7; 17] /\
  map fst (map_to_list (fs (snd (snd r)))) =
    ["lib/book_defs.pkl"; "lib/tale.canute"]%string /\
  fs (snd (snd r)) !! "lib/tale.canute"%string =
    Some (RawFile (Spec.to_bytes [1; 3; 9; 5; 6; 7])).
Proof. vm_compute. repeat split; reflexivity. Qed.

(** Adding a PEF book under a name: rows are converted through
    [unicode_to_pin_num], short and empty rows are filled with zeros, and
    the catalog is ordered by title while the content is ordered by the
    uppercase braille text. *)
Example add_book_pef_sample :
  let rows := [Some [0x2801; 0x2803; 0x2840; 0x20]; None;
               Some [0x2801; 0x2801; 0x2801; 0x2801]] in
  let w := mk_world Sample.heap1
                    {[ "usb/x.pef"%string := RawFile "pef" ]} [] [] in
  let r := Library.add_book (fun _ => Some rows) "usb/x.pef" (Some "Dune"%string)
                            true (Sample.library0, w) in
  fst r = Ok tt /\
  map title (Library.book_defs (fst (snd r))) =
    ["Dune"; "alice"; "bleak house"; "emma"]%string /\
  Pageable.content (Library.base (fst (snd r))) = [0; 1; 3; 2]%nat /\
  fs (snd (snd r)) !! "lib/x.canute"%string =
    Some (RawFile (Spec.to_bytes [1; 3; 63; 0; 0; 0; 1; 1; 1])) /\
  fs (snd (snd r)) !! "usb/x.pef"%string = None.
Proof. vm_compute. repeat split; reflexivity. Qed.

End LibraryFacts.

(** ** DriverBoth *)

Section DriverBothFacts.
Context {W args value : Type}.
Variables emulated pi : string -> option (args -> M W value).
Variables Driver_methods defined_methods : list string.

Abbreviation install := (DriverBoth.install emulated pi defined_methods).
Abbreviation make_method := (DriverBoth.make_method emulated pi).

(** The loop leaves alone the names it does not visit. *)
Lemma install_other (names : list string) (name : string) :
  forall cls, name ∉ names -> foldl install cls names !! name = cls !! name.
Proof.
  induction names as [|x names IH]; intros cls Hn; simpl; [reflexivity |].
  apply not_elem_of_cons in Hn. destruct Hn as [Hne Hn].
  rewrite IH by exact Hn. unfold DriverBoth.install.
  destruct (decide (x ∈ defined_methods)); [reflexivity |].
  apply lookup_insert_ne. congruence.
Qed.

(** A visited name that the class body does not define ends up bound to
    the method made for that very name, also when later iterations set
    other names or the same one again. *)
Lemma install_visited (names : list string) (name : string) :
  forall cls,
    name ∈ names -> name ∉ defined_methods ->
    foldl install cls names !! name
    = Some (DriverBoth.Synthesized (make_method name)).
Proof.
  induction names as [|x names IH]; intros cls Hin Hdef; simpl.
  - apply elem_of_nil in Hin. contradiction.
  - destruct (decide (name ∈ names)) as [Hlater|Hlast].
    + apply IH; assumption.
    + apply elem_of_cons in Hin. destruct Hin as [->|Hin]; [| contradiction].
      rewrite install_other by exact Hlast. unfold DriverBoth.install.
      destruct (decide (x ∈ defined_methods)); [contradiction |].
      apply lookup_insert_eq.
Qed.

(** C9: for a Driver operation that DriverBoth does not define itself
    and that both backends implement, the class holds the forwarding
    method made for that name, and a call runs the emulated backend's
    method first, then the Pi's with the same arguments on the state the
    first left, and returns the emulated backend's value, the Pi's being
    dropped; an exception of the emulated backend ends the call before
    the Pi is reached, and one of the Pi propagates. *)
Theorem both_forwards_emulated_then_pi (name : string) (a : args) (w : W)
    (emulated_method pi_method : args -> M W value) :
  name ∈ Driver_methods ->
  name ∉ defined_methods ->
  emulated name = Some emulated_method ->
  pi name = Some pi_method ->
  DriverBoth.DriverBoth emulated pi Driver_methods defined_methods !! name
  = Some (DriverBoth.Synthesized (make_method name)) /\
  DriverBoth.call emulated pi Driver_methods defined_methods name a w =
  match emulated_method a w with
  | (Ok emulated_return, w1) =>
      match pi_method a w1 with
      | (Ok _, w2) => (Ok emulated_return, w2)
      | (Raise e, w2) => (Raise e, w2)
      end
  | (Raise e, w1) => (Raise e, w1)
  end.
Proof.
  intros Hin Hdef Hem Hpi.
  assert (Hcls := install_visited Driver_methods name
                    DriverBoth.class_body Hin Hdef).
  split; [exact Hcls |].
  unfold DriverBoth.call, DriverBoth.DriverBoth. rewrite Hcls.
  unfold DriverBoth.make_method, DriverBoth.getattribute, Py.bind.
  rewrite Hem, Hpi. simpl.
  destruct (emulated_method a w) as [[v|e] w1]; [| reflexivity].
  destruct (pi_method a w1) as [[v'|e] w2]; reflexivity.
Qed.

End DriverBothFacts.

Lemma both_forwards_emulated_then_pi_witness :
  DriverBoth.call Sample.emulated0 Sample.pi0 Sample.Driver_methods0
    Sample.defined_methods0 "get_rows" 8 [] =
  (Ok 9, ["emulated.get_rows"; "pi.get_rows"]%string).
Proof.
  apply (both_forwards_emulated_then_pi Sample.emulated0 Sample.pi0
           Sample.Driver_methods0 Sample.defined_methods0 "get_rows" 8 []
           (fun a journal => (Ok (a + 1), journal ++ ["emulated.get_rows"%string]))
           (fun a journal => (Ok 0, journal ++ ["pi.get_rows"%string]))).
  - right. left.
  - intros Hin. vm_compute in Hin.
    repeat (apply elem_of_cons in Hin; destruct Hin as [Hin|Hin];
            [discriminate |]).
    apply elem_of_nil in Hin. exact Hin.
  - reflexivity.
  - reflexivity.
Defined.

(** ** Library.convert_brf *)

Section ConvertBrf.

Abbreviation chars := list_ascii_of_string.
Abbreviation table := (list_ascii_of_string Utility.mapping).
Abbreviation nl := (String Os.newline EmptyString).













Abbreviation pin_value := (fun v : Z => 0 <= v <= 63).



Lemma set_fs_same (w : world) : set_fs (fs w) w = w.
Proof. destruct w; reflexivity. Qed.





End ConvertBrf.

(** * Further properties *)

(** ** utility.py: the two encodings and the test data *)

Section UtilityMore.
Import Utility.

Abbreviation table := (list_ascii_of_string mapping).

Lemma unicode_to_pin_num_clamp (c : unichar) :
  unicode_to_pin_num c = Z.max 0 (Z.min (ord c - 0x2800) 63).
Proof.
  unfold unicode_to_pin_num, ord.
  repeat (rewrite take_dot_code;
          match goal with |- context [?a >=? ?b] =>
            destruct (Z.geb_spec a b) end);
    cbn; lia.
Qed.

(** X1: every character has a braille pattern: [alpha_to_unicode] never
    fails, its result lies in U+2800..U+283F, and [unicode_to_pin_num]
    takes it back to the pin number [alpha_to_pin_num] gave. *)
Theorem alpha_to_unicode_round_trip (ch : ascii) :
  exists u : unichar,
    alpha_to_unicode ch = Some u /\
    0x2800 <= ord u <= 0x283F /\
    unicode_to_pin_num u = alpha_to_pin_num ch.
Proof.
  pose proof (alpha_to_pin_num_range ch) as Hr.
  exists (alpha_to_pin_num ch + 10240).
  unfold alpha_to_unicode, unichr.
  destruct (Z.leb_spec 0 (alpha_to_pin_num ch + 10240)); [| lia].
  destruct (Z.ltb_spec (alpha_to_pin_num ch + 10240) 0x110000); [| lia].
  split; [reflexivity |]. rewrite unicode_to_pin_num_clamp. unfold ord. lia.
Qed.

Lemma upper_idem (c : ascii) : upper (upper c) = upper c.
Proof.
  assert (Hu : upper c =
               if ((97 <=? nat_of_ascii c) && (nat_of_ascii c <=? 122))%nat
               then ascii_of_nat (nat_of_ascii c - 32) else c)
    by reflexivity.
  destruct ((97 <=? nat_of_ascii c) && (nat_of_ascii c <=? 122))%nat eqn:Hc.
  - apply andb_true_iff in Hc. destruct Hc as [Hlo Hhi].
    apply Nat.leb_le in Hlo, Hhi. rewrite Hu.
    unfold upper. rewrite nat_ascii_embedding by lia.
    destruct (Nat.leb_spec 97 (nat_of_ascii c - 32)); [lia | reflexivity].
  - rewrite Hu. exact Hu.
Qed.

(** X2: [alphas_to_pin_nums] gives one pin value per character, each in
    [0, 63], and does not tell a character from its uppercase form. *)
Theorem alphas_to_pin_nums_spec (s : string) :
  length (alphas_to_pin_nums s) = String.length s /\
  Forall (fun v => 0 <= v <= 63) (alphas_to_pin_nums s) /\
  alphas_to_pin_nums
    (string_of_list_ascii (map upper (list_ascii_of_string s)))
  = alphas_to_pin_nums s.
Proof.
  unfold alphas_to_pin_nums. split; [| split].
  - rewrite length_map. induction s as [|c s IH]; simpl; congruence.
  - apply Forall_forall. intros v Hv.
    apply list_elem_of_In, in_map_iff in Hv. destruct Hv as (c & <- & _).
    apply alpha_to_pin_num_range.
  - rewrite list_ascii_of_string_of_list_ascii, map_map.
    apply map_ext. intros c. unfold alpha_to_pin_num.
    rewrite upper_idem. reflexivity.
Qed.

Lemma table_fixed_by_upper : Forall (fun c => upper c = c) table.
Proof.
  apply (bool_decide_unpack (Forall (fun c => upper c = c) table)).
  vm_compute. exact I.
Qed.

Lemma alpha_to_pin_num_position (c : ascii) :
  c ∈ table -> table !! Z.to_nat (alpha_to_pin_num c) = Some c.
Proof.
  intros Hc.
  assert (Hup : upper c = c).
  { pose proof table_fixed_by_upper as H. rewrite Forall_forall in H. auto. }
  unfold alpha_to_pin_num. rewrite Hup.
  destruct (index table c) as [i|] eqn:Hi.
  - rewrite Nat2Z.id. apply (index_Some _ _ _ Hi).
  - exfalso. exact (index_None _ _ Hi Hc).
Qed.

(** X3: on the table the encoding is one to one and onto: every pin
    value in [0, 63] is the pin number of exactly one table character. *)
Theorem alpha_to_pin_num_bijective (k : Z) :
  0 <= k <= 63 ->
  exists c : ascii,
    c ∈ table /\ alpha_to_pin_num c = k /\
    forall c', c' ∈ table -> alpha_to_pin_num c' = k -> c' = c.
Proof.
  intros Hk.
  destruct (lookup_lt_is_Some_2 table (Z.to_nat k)) as [c Hc].
  { rewrite mapping_length. lia. }
  assert (Hin : c ∈ table) by (apply list_elem_of_lookup; eauto).
  exists c. split; [exact Hin | split].
  - pose proof (alpha_to_pin_num_position c Hin) as Hpos.
    pose proof (alpha_to_pin_num_range c) as Hr.
    pose proof (NoDup_lookup _ _ _ _ mapping_NoDup Hpos Hc). lia.
  - intros c' Hin' Hk'. pose proof (alpha_to_pin_num_position c' Hin') as Hpos.
    rewrite Hk' in Hpos. congruence.
Qed.

Lemma alpha_to_pin_num_bijective_witness :
  exists c : ascii,
    c ∈ table /\ alpha_to_pin_num c = 17 /\
    forall c', c' ∈ table -> alpha_to_pin_num c' = 17 -> c' = c.
Proof. apply (alpha_to_pin_num_bijective 17). lia. Defined.

(** X4: [unicode_to_pin_num] yields a pin value in [0, 63] for every
    code point, and 0, the blank cell, for every code point below the
    braille block (so for every ASCII character). *)
Theorem unicode_to_pin_num_total (c : unichar) :
  0 <= unicode_to_pin_num c <= 63 /\
  (ord c <= 0x2800 -> unicode_to_pin_num c = 0).
Proof. rewrite unicode_to_pin_num_clamp. lia. Qed.

Lemma unicode_to_pin_num_total_witness : unicode_to_pin_num 65 = 0.
Proof. apply (unicode_to_pin_num_total 65). vm_compute. discriminate. Defined.

Lemma range_lookup (n : Z) (k : nat) :
  (k < Z.to_nat n)%nat -> Py.range n !! k = Some (Z.of_nat k).
Proof.
  intros Hk. unfold Py.range. rewrite list_lookup_fmap, lookup_seq_lt by lia.
  reflexivity.
Qed.

Lemma range_length (n : Z) : length (Py.range n) = Z.to_nat n.
Proof. unfold Py.range. rewrite length_map, length_seq. reflexivity. Qed.

(** X5: [test_pattern] holds [cols * rows] values, the one at position
    [k] being [k mod 64], a pin value; it is empty when the product is not
    positive. *)
Theorem test_pattern_spec (cols rows : Z) :
  Py.len (test_pattern (cols, rows)) = Z.max 0 (cols * rows) /\
  (forall k : nat,
     Z.of_nat k < cols * rows ->
     test_pattern (cols, rows) !! k = Some (Z.of_nat k mod 64)) /\
  Forall (fun v => 0 <= v <= 63) (test_pattern (cols, rows)).
Proof.
  unfold test_pattern. split; [| split].
  - unfold Py.len. rewrite length_map, range_length. lia.
  - intros k Hk. rewrite list_lookup_fmap, range_lookup by lia. reflexivity.
  - apply Forall_forall. intros v Hv.
    apply list_elem_of_In, in_map_iff in Hv. destruct Hv as (i & <- & _).
    pose proof (Z.mod_pos_bound i 64). lia.
Qed.

Lemma test_pattern_spec_witness :
  test_pattern (40, 9) !! 100%nat = Some (Z.of_nat 100 mod 64).
Proof. apply (test_pattern_spec 40 9 ). vm_compute. reflexivity. Defined.

Lemma map_const_range {A} (x : A) (n : Z) :
  map (fun _ => x) (Py.range n) = replicate (Z.to_nat n) x.
Proof.
  unfold Py.range. rewrite map_map. generalize 0%nat.
  induction (Z.to_nat n) as [|m IH]; intros start; simpl;
    [| rewrite IH]; reflexivity.
Qed.

(** The lines of [test_book], block by block. *)
Lemma test_book_blocks (cells rows : Z) :
  test_book (cells, rows) =
  concat (map (fun i => replicate (Z.to_nat rows)
                          (replicate (Z.to_nat cells) (9 * i)))
              [0; 1; 2; 3; 4; 5; 6; 7]).
Proof.
  unfold test_book. change (Py.range 8) with [0; 1; 2; 3; 4; 5; 6; 7].
  f_equal. apply map_ext. intros i. simpl fst. simpl snd.
  rewrite map_const_range. unfold Py.repeat.
  rewrite concat_replicate_singleton. f_equal. f_equal.
  rewrite Z.shiftl_mul_pow2 by lia. change (2 ^ 3) with 8. lia.
Qed.

Lemma blocks_lookup {A} (g : Z -> A) (R : nat) (l : list Z) :
  forall (k r : nat) (i : Z),
    l !! k = Some i -> (r < R)%nat ->
    concat (map (fun i => replicate R (g i)) l) !! (k * R + r)%nat
    = Some (g i).
Proof.
  induction l as [|x l IH]; intros k r i Hk Hr; [discriminate |].
  simpl. destruct k as [|k].
  - injection Hk as ->. rewrite lookup_app_l by (rewrite length_replicate; lia).
    apply lookup_replicate_2. lia.
  - rewrite lookup_app_r by (rewrite length_replicate; lia).
    rewrite length_replicate.
    replace (S k * R + r - R)%nat with (k * R + r)%nat by lia.
    apply IH; assumption.
Qed.

(** X6: [test_book] is a book of 8 pages of [rows] lines: line [r] of
    page [pg] is [cells] copies of [9 * pg] (the two rotors of a cell in
    position [pg]), every value is a pin value, and as content with
    [rows] lines a page it has 8 pages. *)
Theorem test_book_spec (cells rows : Z) :
  Py.len (test_book (cells, rows)) = 8 * Z.max 0 rows /\
  (forall pg r : Z,
     0 <= pg < 8 -> 0 <= r < rows ->
     test_book (cells, rows) !! Z.to_nat (pg * rows + r)
     = Some (replicate (Z.to_nat cells) (9 * pg))) /\
  Forall (Forall (fun v => 0 <= v <= 63)) (test_book (cells, rows)) /\
  (rows > 0 -> Py.ceil_div (Py.len (test_book (cells, rows))) rows = 8).
Proof.
  assert (Hlen : Py.len (test_book (cells, rows)) = 8 * Z.max 0 rows).
  { rewrite test_book_blocks. unfold Py.len. simpl.
    rewrite !length_app, !length_replicate. simpl. lia. }
  split; [exact Hlen | split; [| split]].
  - intros pg r Hpg Hr. rewrite test_book_blocks.
    replace (Z.to_nat (pg * rows + r))
      with (Z.to_nat pg * Z.to_nat rows + Z.to_nat r)%nat by nia.
    rewrite (blocks_lookup
               (fun i => replicate (Z.to_nat cells) (9 * i))
               (Z.to_nat rows) _ (Z.to_nat pg) (Z.to_nat r) pg);
      [reflexivity | | lia].
    assert (Hcases : pg = 0 \/ pg = 1 \/ pg = 2 \/ pg = 3 \/ pg = 4 \/
                     pg = 5 \/ pg = 6 \/ pg = 7) by lia.
    repeat destruct Hcases as [->|Hcases]; try subst pg; reflexivity.
  - rewrite test_book_blocks. apply Forall_concat, Forall_forall.
    intros block Hblock.
    apply list_elem_of_In, in_map_iff in Hblock.
    destruct Hblock as (i & <- & Hi).
    apply Forall_replicate, Forall_replicate.
    simpl in Hi. lia.
  - intros Hrows. rewrite Hlen. unfold Py.ceil_div.
    replace (- (8 * Z.max 0 rows)) with ((-8) * rows) by lia.
    rewrite Z.div_mul by lia. reflexivity.
Qed.

Lemma test_book_spec_witness :
  test_book (40, 9) !! Z.to_nat (3 * 9 + 4)
  = Some (replicate (Z.to_nat 40) (9 * 3)) /\
  Py.ceil_div (Py.len (test_book (40, 9))) 9 = 8.
Proof.
  split.
  - apply (test_book_spec 40 9); lia.
  - apply (test_book_spec 40 9). lia.
Defined.

End UtilityMore.

(** ** Pageable: page count, saved state, rendering and navigation *)

Section PageableMore.
Import Pageable.

(** X7: with [rows > 0], [get_num_pages] is the least number of pages
    of [rows] lines that hold the content, and it is 0 exactly for empty
    content; with [rows = 0] it raises ZeroDivisionError.  The state is
    left as it was. *)
Theorem get_num_pages_spec (self : t (list loc)) (w : world) :
  (rows self = 0 ->
   get_num_pages (self, w) = (Raise ZeroDivisionError, (self, w))) /\
  (rows self > 0 ->
   exists n,
     get_num_pages (self, w) = (Ok n, (self, w)) /\
     (n - 1) * rows self < Py.len (content self) <= n * rows self /\
     (n = 0 <-> content self = [])).
Proof.
  rewrite get_num_pages_run. split.
  - intros ->. reflexivity.
  - intros Hrows. destruct (Z.eqb_spec (rows self) 0) as [|_]; [lia |].
    eexists. split; [reflexivity |].
    unfold Py.ceil_div. pose proof (len_nonneg (content self)) as Hl.
    set (a := - Py.len (content self)) in *.
    pose proof (Z.mul_div_le a (rows self)) as Hle.
    pose proof (Z.mul_succ_div_gt a (rows self)) as Hgt.
    assert (Hb : (- (a / rows self) - 1) * rows self < Py.len (content self)
                 <= - (a / rows self) * rows self) by (subst a; nia).
    split; [exact Hb |]. split.
    + intros H0. rewrite H0 in Hb.
      destruct (content self); [reflexivity |].
      unfold Py.len in Hb. simpl in Hb. lia.
    + intros Hnil. subst a. rewrite Hnil. reflexivity.
Qed.

Lemma get_num_pages_spec_witness :
  exists n,
    get_num_pages (Sample.pageable0, Sample.world0)
    = (Ok n, (Sample.pageable0, Sample.world0)) /\
    (n - 1) * 2 < 4 <= n * 2.
Proof.
  destruct (get_num_pages_spec Sample.pageable0 Sample.world0) as [_ H].
  destruct H as (n & Hrun & Hb & _); [reflexivity |].
  exists n. split; [exact Hrun | exact Hb].
Defined.




(** X9: [remove_state] never raises, whether the state file is there or
    not; it removes that file and no other, and a Pageable built
    afterwards on the same state file opens at page 0. *)
Theorem remove_state_spec {C} (self : t C) (w : world) :
  exists w',
    remove_state (self, w) = (Ok tt, (self, w')) /\
    fs w' = delete (state_file self) (fs w) /\
    heap w' = heap w /\ driver_calls w' = driver_calls w /\
    load_state (self, w') = (Ok tt, (self, w')).
Proof.
  unfold remove_state, Py.bind, self_, Py.gets, Py.try_except, in_world,
    os_remove. simpl.
  destruct (fs w !! state_file self) as [f|] eqn:Hf; simpl.
  - eexists. split; [reflexivity |]. simpl.
    repeat split. rewrite load_state_run. simpl.
    rewrite lookup_delete_eq. reflexivity.
  - exists w. split; [reflexivity |].
    split; [symmetry; apply delete_id; exact Hf |].
    repeat split. rewrite load_state_run, Hf. reflexivity.
Qed.










Lemma num_pages_set_page (self : t (list loc)) (w : world) (n pg : Z) :
  fst (get_num_pages (self, w)) = Ok n ->
  fst (get_num_pages (set_page pg self, w)) = Ok n.
Proof.
  rewrite !get_num_pages_run. simpl.
  destruct (rows self =? 0); [discriminate | auto].
Qed.

Lemma set_page_twice {C} (a b : Z) (self : t C) :
  set_page a (set_page b self) = set_page a self.
Proof. reflexivity. Qed.

(** One step of navigation from any page of the same object. *)
Lemma nav_step (self : t (list loc)) (w : world) (n pg : Z)
    (op : M (state (list loc)) unit) :
  fst (get_num_pages (self, w)) = Ok n ->
  Spec.page_ok pg n ->
  op ∈ [home; prev; next; end_] ->
  exists pg', op (set_page pg self, w) = (Ok tt, (set_page pg' self, w)) /\
              Spec.page_ok pg' n.
Proof.
  intros Hn Hok Hop. pose proof (num_pages_set_page _ _ _ pg Hn) as Hn'.
  unfold Spec.page_ok in *.
  repeat (apply elem_of_cons in Hop; destruct Hop as [->|Hop]).
  - rewrite home_run. eexists. split; [reflexivity | lia].
  - rewrite prev_run. eexists. split; [reflexivity |]. simpl.
    destruct (Z.gtb_spec pg 0); lia.
  - rewrite (next_run _ _ _ Hn'). eexists. split; [reflexivity |]. simpl.
    destruct (Z.ltb_spec pg (n - 1)); lia.
  - rewrite (end_run _ _ _ Hn'). eexists. split; [reflexivity |]. simpl.
    destruct (Z.eqb_spec n 0); lia.
  - apply elem_of_nil in Hop. contradiction.
Qed.

(** X12: however many navigation calls are made, in whatever order,
    every one returns normally and the page index never leaves
    [0, numPages - 1] (0 when there is no page); nothing but the page
    index changes. *)
Theorem navigation_sequence_in_range (self : t (list loc)) (w : world)
    (n : Z) (ops : list (M (state (list loc)) unit)) :
  fst (get_num_pages (self, w)) = Ok n ->
  Spec.page_ok (page self) n ->
  Forall (fun op => op ∈ [home; prev; next; end_]) ops ->
  exists pg, Py.seq_all ops (self, w) = (Ok tt, (set_page pg self, w)) /\
             Spec.page_ok pg n.
Proof.
  intros Hn Hok Hops.
  assert (Hgen : forall pg0, Spec.page_ok pg0 n ->
            exists pg, Py.seq_all ops (set_page pg0 self, w)
                       = (Ok tt, (set_page pg self, w)) /\
                       Spec.page_ok pg n).
  { clear Hok. induction Hops as [|op ops Hop _ IH]; intros pg Hok.
    - exists pg. split; [reflexivity | exact Hok].
    - destruct (nav_step self w n pg op Hn Hok Hop) as (pg' & Hrun & Hok').
      destruct (IH pg' Hok') as (pg'' & Hrest & Hok'').
      exists pg''. split; [| exact Hok''].
      simpl. unfold Py.bind. rewrite Hrun. exact Hrest. }
  specialize (Hgen (page self) Hok). rewrite set_page_same in Hgen.
  exact Hgen.
Qed.

Lemma navigation_sequence_in_range_witness :
  exists pg,
    Py.seq_all [next; next; next; prev; end_; home; prev]
               (Sample.pageable0, Sample.world0)
    = (Ok tt, (set_page pg Sample.pageable0, Sample.world0)) /\
    Spec.page_ok pg 2.
Proof.
  apply (navigation_sequence_in_range Sample.pageable0 Sample.world0 2).
  - reflexivity.
  - left. simpl. lia.
  - repeat apply Forall_cons_2; try apply Forall_nil_2;
      repeat (first [apply list_elem_of_here | apply list_elem_of_further]).
Defined.

(** X13: [next] and [prev] undo each other away from the ends: from a
    page that is not the last, [next] then [prev] restores the state,
    and from a page that is not the first, [prev] then [next] does. *)
Theorem next_and_prev_are_inverse (self : t (list loc)) (w : world) (n : Z) :
  fst (get_num_pages (self, w)) = Ok n ->
  0 <= page self <= n - 1 ->
  (page self < n - 1 ->
   Py.seq_all [next; prev] (self, w) = (Ok tt, (self, w))) /\
  (0 < page self ->
   Py.seq_all [prev; next] (self, w) = (Ok tt, (self, w))).
Proof.
  intros Hn Hok. split; intros Hp; simpl; unfold Py.bind.
  - rewrite (next_run _ _ _ Hn).
    destruct (Z.ltb_spec (page self) (n - 1)); [| lia].
    rewrite prev_run. simpl.
    destruct (Z.gtb_spec (page self + 1) 0); [| lia].
    unfold Py.ret.
    replace (page self + 1 - 1) with (page self) by lia.
    rewrite set_page_twice, set_page_same. reflexivity.
  - rewrite prev_run. destruct (Z.gtb_spec (page self) 0); [| lia].
    rewrite (next_run _ _ n) by (apply num_pages_set_page; exact Hn).
    simpl. destruct (Z.ltb_spec (page self - 1) (n - 1)); [| lia].
    unfold Py.ret.
    replace (page self - 1 + 1) with (page self) by lia.
    rewrite set_page_twice, set_page_same. reflexivity.
Qed.

Lemma next_and_prev_are_inverse_witness :
  Py.seq_all [next; prev] (Sample.pageable0, Sample.world0)
  = (Ok tt, (Sample.pageable0, Sample.world0)).
Proof.
  apply (next_and_prev_are_inverse Sample.pageable0 Sample.world0 2).
  - reflexivity.
  - simpl. lia.
  - simpl. lia.
Defined.

(** X14: [k] calls of [next] move [k] pages forward but stop at the
    last page, and [k] calls of [prev] move [k] pages back but stop at
    the first. *)
Theorem repeated_next_and_prev (self : t (list loc)) (w : world) (n : Z)
    (k : nat) :
  fst (get_num_pages (self, w)) = Ok n ->
  0 <= page self <= n - 1 ->
  Py.seq_all (replicate k next) (self, w) =
    (Ok tt, (set_page (Z.min (page self + Z.of_nat k) (n - 1)) self, w)) /\
  Py.seq_all (replicate k prev) (self, w) =
    (Ok tt, (set_page (Z.max (page self - Z.of_nat k) 0) self, w)).
Proof.
  intros Hn Hok.
  assert (Hgen : forall pg, 0 <= pg <= n - 1 ->
    Py.seq_all (replicate k next) (set_page pg self, w) =
      (Ok tt, (set_page (Z.min (pg + Z.of_nat k) (n - 1)) self, w)) /\
    Py.seq_all (replicate k prev) (set_page pg self, w) =
      (Ok tt, (set_page (Z.max (pg - Z.of_nat k) 0) self, w)));
    [| specialize (Hgen (page self) Hok); rewrite set_page_same in Hgen;
       exact Hgen].
  clear Hok.
  induction k as [|k IH]; intros pg Hok.
  - simpl. unfold Py.ret.
    rewrite Z.min_l, Z.max_l by lia. rewrite Z.add_0_r, Z.sub_0_r. auto.
  - simpl. unfold Py.bind.
    rewrite (next_run _ _ n) by (apply num_pages_set_page; exact Hn).
    rewrite prev_run. simpl. rewrite !set_page_twice.
    destruct (Z.ltb_spec pg (n - 1)); destruct (Z.gtb_spec pg 0).
    + destruct (IH (pg + 1)) as [Hnext _]; [lia |].
      destruct (IH (pg - 1)) as [_ Hprev]; [lia |].
      rewrite Hnext, Hprev. split; do 3 f_equal; lia.
    + destruct (IH (pg + 1)) as [Hnext _]; [lia |].
      destruct (IH pg) as [_ Hprev]; [lia |].
      rewrite Hnext, Hprev. split; do 3 f_equal; lia.
    + destruct (IH pg) as [Hnext _]; [lia |].
      destruct (IH (pg - 1)) as [_ Hprev]; [lia |].
      rewrite Hnext, Hprev. split; do 3 f_equal; lia.
    + destruct (IH pg) as [Hnext Hprev]; [lia |].
      rewrite Hnext, Hprev. split; do 3 f_equal; lia.
Qed.

Lemma repeated_next_and_prev_witness :
  Py.seq_all (replicate 5 next) (Sample.pageable0, Sample.world0) =
    (Ok tt, (set_page (Z.min (0 + Z.of_nat 5) (2 - 1)) Sample.pageable0,
             Sample.world0)).
Proof.
  apply (repeated_next_and_prev Sample.pageable0 Sample.world0 2 5).
  - reflexivity.
  - simpl. lia.
Defined.



End PageableMore.

(** ** utility.py: looking for files *)

Section FilesFacts.
Variable os_walk :
  gmap string file -> string -> list (string * list string * list string).

Lemma startswith_chars_nil (s : list ascii) : Os.startswith_chars s [] = true.
Proof. destruct s; reflexivity. Qed.

Lemma startswith_chars_app (s r t : list ascii) :
  Os.startswith_chars s t = true -> Os.startswith_chars (s ++ r) t = true.
Proof.
  revert s. induction t as [|y t IH]; intros s H;
    [apply startswith_chars_nil |].
  destruct s as [|x s]; [discriminate |].
  simpl in *. apply andb_true_iff in H. destruct H as [Hxy Hrest].
  rewrite Hxy. simpl. apply IH. exact Hrest.
Qed.

Lemma chars_append (s t : string) :
  list_ascii_of_string (s +:+ t)
  = list_ascii_of_string s ++ list_ascii_of_string t.
Proof. induction s as [|c s IH]; simpl; [| rewrite IH]; reflexivity. Qed.

Lemma endswith_append (a b t : string) :
  Os.endswith b t = true -> Os.endswith (a +:+ b) t = true.
Proof.
  unfold Os.endswith. intros H. rewrite chars_append, rev_app_distr.
  apply startswith_chars_app. exact H.
Qed.

(** A joined path ends the way its last component does. *)
Lemma endswith_join (a b t : string) :
  Os.endswith b t = true -> Os.endswith (Os.join a b) t = true.
Proof.
  intros H. unfold Os.join.
  destruct (Os.startswith b "/"); [exact H |].
  destruct (String.eqb a EmptyString || Os.endswith a "/").
  - apply endswith_append. exact H.
  - apply endswith_append, endswith_append. exact H.
Qed.

Lemma elem_of_matches_of (keep : string -> bool)
    (walk : list (string * list string * list string)) (p : string) :
  p ∈ Files.matches_of keep walk <->
  exists root dirnames filenames filename,
    (root, dirnames, filenames) ∈ walk /\ filename ∈ filenames /\
    keep filename = true /\ p = Os.join root filename.
Proof.
  unfold Files.matches_of. rewrite list_elem_of_In, in_concat. split.
  - intros (block & Hblock & Hp).
    apply in_map_iff in Hblock.
    destruct Hblock as ([[root dirnames] filenames] & <- & Hin).
    apply in_map_iff in Hp. destruct Hp as (filename & <- & Hf).
    apply filter_In in Hf. destruct Hf as [Hf Hkeep].
    exists root, dirnames, filenames, filename.
    rewrite !list_elem_of_In. auto.
  - intros (root & dirnames & filenames & filename & Hin & Hf & Hkeep & ->).
    exists (map (Os.join root) (List.filter keep filenames)). split.
    + apply in_map_iff. exists (root, dirnames, filenames).
      split; [reflexivity | apply list_elem_of_In; exact Hin].
    + apply in_map. apply filter_In.
      split; [apply list_elem_of_In; exact Hf | exact Hkeep].
Qed.

(** X16: [find_files] returns normally and changes nothing; a path is
    among its matches exactly when it is [os.path.join(root, filename)]
    for a file name of the walk that ends with one of the extensions;
    so every match ends with one of the extensions.  [find_pef] is
    [find_files] for the single extension [.pef]. *)
Theorem find_files_spec (directory : string) (extensions : list string)
    (w : world) :
  exists matches,
    Files.find_files os_walk directory extensions w = (Ok matches, w) /\
    (forall p,
       p ∈ matches <->
       exists root dirnames filenames filename,
         (root, dirnames, filenames) ∈ os_walk (fs w) directory /\
         filename ∈ filenames /\
         Os.endswith_any filename extensions = true /\
         p = Os.join root filename) /\
    Forall (fun p => Os.endswith_any p extensions = true) matches /\
    Files.find_pef os_walk directory w =
    Files.find_files os_walk directory [".pef"%string] w.
Proof.
  eexists. split; [reflexivity |].
  split; [intros p; apply elem_of_matches_of |].
  split; [| reflexivity].
  apply Forall_forall. intros p Hp. apply elem_of_matches_of in Hp.
  destruct Hp as (root & dirnames & filenames & filename & _ & _ & Hk & ->).
  unfold Os.endswith_any in *. apply existsb_exists in Hk.
  destruct Hk as (t & Ht & Hend). apply existsb_exists.
  exists t. split; [exact Ht | apply endswith_join; exact Hend].
Qed.

Lemma head_matches_of (keep : string -> bool)
    (walk : list (string * list string * list string)) :
  match head (Files.matches_of keep walk) with
  | None => forall root dirnames filenames filename,
      (root, dirnames, filenames) ∈ walk -> filename ∈ filenames ->
      keep filename = false
  | Some p => exists before root dirnames filenames after filename,
      walk = before ++ (root, dirnames, filenames) :: after /\
      filename ∈ filenames /\ keep filename = true /\
      p = Os.join root filename /\
      forall root' dirnames' filenames' filename',
        (root', dirnames', filenames') ∈ before -> filename' ∈ filenames' ->
        keep filename' = false
  end.
Proof.
  induction walk as [|[[root dirnames] filenames] walk IH].
  - simpl. intros ? ? ? ? Hin. apply elem_of_nil in Hin. contradiction.
  - unfold Files.matches_of in *. simpl.
    destruct (List.filter keep filenames) as [|f fs'] eqn:Hf.
    + simpl.
      assert (Hnone : forall filename, filename ∈ filenames ->
                                       keep filename = false).
      { intros filename Hin. destruct (keep filename) eqn:Hk; [| reflexivity].
        assert (Hin' : In filename (List.filter keep filenames))
          by (apply filter_In; split;
              [apply list_elem_of_In; exact Hin | exact Hk]).
        rewrite Hf in Hin'. destruct Hin'. }
      destruct (head (concat _)) as [p|] eqn:Hh.
      * destruct IH as (before & root' & dn' & fn' & after & filename
                        & -> & Hin & Hk & -> & Hbefore).
        exists ((root, dirnames, filenames) :: before), root', dn', fn',
          after, filename.
        repeat split; auto.
        intros r d f0 f' Hb Hf'. apply elem_of_cons in Hb.
        destruct Hb as [[= -> -> ->]|Hb]; [auto | eauto].
      * intros r d f0 f' Hb Hf'. apply elem_of_cons in Hb.
        destruct Hb as [[= -> -> ->]|Hb]; [auto | eauto].
    + simpl. exists [], root, dirnames, filenames, walk, f.
      assert (Hin : In f (List.filter keep filenames))
        by (rewrite Hf; left; reflexivity).
      apply filter_In in Hin. destruct Hin as [Hin Hk].
      repeat split; auto.
      * apply list_elem_of_In. exact Hin.
      * intros ? ? ? ? Hb. apply elem_of_nil in Hb. contradiction.
Qed.

(** X17: [find_firmware] returns normally and changes nothing.  It
    returns [None] exactly when no directory of the walk lists a file
    named [canute-firmware.zip]; otherwise it returns the path of that
    file in the first directory of the walk that lists it. *)
Theorem find_firmware_spec (directory : string) (w : world) :
  let firmware_file := "canute-firmware.zip"%string in
  let walk := os_walk (fs w) directory in
  exists r,
    Files.find_firmware os_walk directory w = (Ok r, w) /\
    (r = None <->
     forall root dirnames filenames,
       (root, dirnames, filenames) ∈ walk -> firmware_file ∉ filenames) /\
    (forall p, r = Some p ->
     exists before root dirnames filenames after,
       walk = before ++ (root, dirnames, filenames) :: after /\
       firmware_file ∈ filenames /\
       p = Os.join root firmware_file /\
       forall root' dirnames' filenames',
         (root', dirnames', filenames') ∈ before ->
         firmware_file ∉ filenames').
Proof.
  intros firmware_file walk. eexists. split; [reflexivity |].
  fold walk.
  pose proof (head_matches_of (fun f => String.eqb f firmware_file) walk) as H.
  fold firmware_file.
  destruct (head _) as [p|].
  - destruct H as (before & root & dn & fnames & after & filename
                   & Hwalk & Hin & Hk & -> & Hbefore).
    apply String.eqb_eq in Hk. subst filename. split.
    + split; [discriminate |]. intros Hnone. exfalso.
      apply (Hnone root dn fnames); [| exact Hin].
      rewrite Hwalk. apply elem_of_app. right. left.
    + intros p' [= <-]. exists before, root, dn, fnames, after.
      repeat split; auto.
      intros r' d' f' Hb Hf'. specialize (Hbefore r' d' f' _ Hb Hf').
      rewrite String.eqb_refl in Hbefore. discriminate.
  - split; [| discriminate]. split; [| reflexivity].
    intros _ root dn fnames Hin Hf. specialize (H root dn fnames _ Hin Hf).
    rewrite String.eqb_refl in H. discriminate.
Qed.

End FilesFacts.

Lemma find_firmware_spec_witness :
  Files.find_firmware
    (fun _ _ => [("usb"%string, ["sub"%string], ["a.pef"%string]);
                 ("usb/sub"%string, [], ["canute-firmware.zip"%string])])
    "usb" Sample.world0
  = (Ok (Some "usb/sub/canute-firmware.zip"%string), Sample.world0).
Proof.
  destruct (find_firmware_spec
              (fun _ _ => [("usb"%string, ["sub"%string], ["a.pef"%string]);
                           ("usb/sub"%string, [], ["canute-firmware.zip"%string])])
              "usb" Sample.world0) as (r & Hrun & _ & _).
  rewrite Hrun. vm_compute in Hrun. injection Hrun as <-. reflexivity.
Defined.

(** ** Library: the two conversions *)

Section ConversionFacts.
Variable minidom_rows : file -> option (list (option (list Utility.unichar))).

Abbreviation pin := (fun v : Z => 0 <= v <= 63).












End ConversionFacts.


(** ** sorted, and Library.add_book on a native file *)

Section SortedFacts.
Context {A : Type} (key : A -> list ascii).


Lemma chars_ltb_negtrans (a b c : list ascii) :
  Py.chars_ltb b a = false -> Py.chars_ltb c b = false ->
  Py.chars_ltb c a = false.
Proof.
  revert b c. induction a as [|x a IH]; intros [|y b] [|z c]; simpl;
    try congruence.
  repeat match goal with
         | |- context [(?m <? ?n)%nat] => destruct (Nat.ltb_spec m n)
         end; try congruence; try lia.
  apply IH.
Qed.

Instance key_le_trans : Transitive (Spec.key_le key).
Proof.
  intros a b c Hab Hbc. unfold Spec.key_le in *.
  exact (chars_ltb_negtrans _ _ _ Hab Hbc).
Qed.




End SortedFacts.

Section AddBookFacts.
Variable minidom_rows : file -> option (list (option (list Utility.unichar))).





Lemma fresh_loc (h : gmap loc (list Z)) : h !! fresh (dom h) = None.
Proof. apply not_elem_of_dom. apply is_fresh. Qed.



End AddBookFacts.


(** ** Library: scanning for books, refresh and restart *)

Section ScanFacts.
Variable os_walk :
  gmap string file -> string -> list (string * list string * list string).
Variable minidom_rows : file -> option (list (option (list Utility.unichar))).

















Lemma list_remove_None (x : string) (l : list string) :
  Os.list_remove x l = None -> x ∉ l.
Proof.
  induction l as [|y l IH]; simpl; intros H; [apply not_elem_of_nil |].
  destruct (String.eqb_spec y x) as [->|Hne]; [discriminate |].
  destruct (Os.list_remove x l); [discriminate |].
  apply not_elem_of_cons. split; [congruence | auto].
Qed.

Lemma list_remove_Some (x : string) (l l' : list string) :
  NoDup l -> Os.list_remove x l = Some l' ->
  NoDup l' /\ forall y, y ∈ l' -> y ∈ l /\ y <> x.
Proof.
  revert l'. induction l as [|y l IH]; simpl; intros l' Hnd H; [discriminate |].
  apply NoDup_cons in Hnd. destruct Hnd as [Hy Hnd].
  destruct (String.eqb_spec y x) as [->|Hne].
  - injection H as <-. split; [exact Hnd |].
    intros z Hz. split; [right; exact Hz | congruence].
  - destruct (Os.list_remove x l) as [l0|] eqn:Hl; [| discriminate].
    injection H as <-. destruct (IH l0 Hnd eq_refl) as [Hnd0 Hin0].
    split.
    + apply NoDup_cons. split; [| exact Hnd0].
      intros Hy0. apply Hy. apply (Hin0 y Hy0).
    + intros z Hz. apply elem_of_cons in Hz. destruct Hz as [->|Hz].
      * split; [left | congruence].
      * destruct (Hin0 z Hz). split; [right |]; assumption.
Qed.

(** The first loop leaves nothing when every file found is the file of a
    book definition. *)
Lemma remove_existing_known (defs : list book_def) :
  forall filenames,
    NoDup filenames ->
    (forall p, p ∈ filenames -> p ∈ map filename defs) ->
    Library.remove_existing filenames defs = [].
Proof.
  unfold Library.remove_existing.
  induction defs as [|d defs IH]; intros filenames Hnd Hknown; simpl.
  - destruct filenames as [|p ps]; [reflexivity |].
    specialize (Hknown p (list_elem_of_here _ _)).
    apply elem_of_nil in Hknown. contradiction.
  - destruct (Os.list_remove (filename d) filenames) as [fs'|] eqn:Hrem.
    + destruct (list_remove_Some _ _ _ Hnd Hrem) as [Hnd' Hin'].
      apply IH; [exact Hnd' |].
      intros p Hp. destruct (Hin' p Hp) as [Hp0 Hne].
      specialize (Hknown p Hp0). apply elem_of_cons in Hknown.
      destruct Hknown; [contradiction | assumption].
    + apply list_remove_None in Hrem. apply IH; [exact Hnd |].
      intros p Hp. specialize (Hknown p Hp) as Hk.
      apply elem_of_cons in Hk. destruct Hk as [->|Hk];
        [contradiction | exact Hk].
Qed.

Lemma check_run (self : Library.t) (w : world) :
  Library.check_for_new_books os_walk minidom_rows (self, w) =
  Library.add_books minidom_rows
    (Library.remove_existing
       (Files.matches_of
          (fun f => Os.endswith_any f [".pef"%string; Library.native_ext])
          (os_walk (fs w) (Library.book_dir self)))
       (Library.book_defs self))
    (self, w).
Proof. reflexivity. Qed.

(** X22: scanning again adds nothing: when every book file the walk
    finds (each once) is the file of a definition of the catalog,
    [check_for_new_books] returns normally and changes neither the
    library nor the world. *)
Theorem check_for_new_books_nothing_new (self : Library.t) (w : world) :
  let found :=
    Files.matches_of
      (fun f => Os.endswith_any f [".pef"%string; Library.native_ext])
      (os_walk (fs w) (Library.book_dir self)) in
  NoDup found ->
  (forall p, p ∈ found -> p ∈ map filename (Library.book_defs self)) ->
  fst (Files.find_files os_walk (Library.book_dir self)
         [".pef"%string; Library.native_ext] w) = Ok found /\
  Library.check_for_new_books os_walk minidom_rows (self, w)
  = (Ok tt, (self, w)).
Proof.
  intros found Hnd Hknown. split; [reflexivity |].
  rewrite check_run. fold found.
  rewrite (remove_existing_known _ _ Hnd Hknown). reflexivity.
Qed.

Lemma pageable_remove_state_run {C} (self : Pageable.t C) (w : world) :
  Pageable.remove_state (self, w) =
  (Ok tt, (self, set_fs (delete (Pageable.state_file self) (fs w)) w)).
Proof.
  unfold Pageable.remove_state, Py.bind, Pageable.self_, Py.gets,
    Py.try_except, Pageable.in_world, os_remove. simpl.
  destruct (fs w !! Pageable.state_file self) as [f|] eqn:Hf; simpl;
    [reflexivity |].
  rewrite (delete_id _ _ Hf), set_fs_same. reflexivity.
Qed.

(** X23: a refresh that finds no book file empties the library in
    memory, catalog and content, and removes the library's state file;
    it writes no file, so the catalog file keeps the old definitions. *)
Theorem refresh_finds_nothing (self : Library.t) (w : world) :
  let state_file := Pageable.state_file (Library.base self) in
  Files.matches_of
    (fun f => Os.endswith_any f [".pef"%string; Library.native_ext])
    (os_walk (delete state_file (fs w)) (Library.book_dir self)) = [] ->
  exists self' w',
    Library.refresh os_walk minidom_rows (self, w) = (Ok tt, (self', w')) /\
    Library.book_defs self' = [] /\
    Pageable.content (Library.base self') = [] /\
    Pageable.page (Library.base self') = Pageable.page (Library.base self) /\
    fs w' = delete state_file (fs w) /\
    (Library.book_defs_file self <> state_file ->
     fs w' !! Library.book_defs_file self = fs w !! Library.book_defs_file self)
    /\ heap w' = heap w.
Proof.
  intros state_file Hnone.
  assert (Hrun :
    Library.refresh os_walk minidom_rows (self, w) =
    Library.check_for_new_books os_walk minidom_rows
      (Library.set_base (Pageable.set_content [] (Library.base self))
         (Library.set_book_defs [] self),
       set_fs (delete state_file (fs w)) w)).
  { unfold Library.refresh, Library.remove_state, Py.bind at 1, Py.bind at 1.
    unfold Library.update at 1, Py.modify, Library.in_base at 1.
    cbn [fst snd Library.base Library.set_book_defs].
    rewrite pageable_remove_state_run.
    unfold Py.bind at 1, Library.in_base at 1. reflexivity. }
  eexists. eexists. split.
  - rewrite Hrun, check_run.
    cbn [fs set_fs Library.book_dir Library.set_base Library.set_book_defs
         Library.book_defs].
    rewrite Hnone. reflexivity.
  - simpl. repeat split; auto.
    intros Hne. apply lookup_delete_ne. congruence.
Qed.


End ScanFacts.

Lemma check_for_new_books_nothing_new_witness :
  Library.check_for_new_books
    (fun _ _ => [("lib/"%string, [], ["emma.canute"; "notes.txt";
                                      "alice.canute"]%string)])
    (fun _ => None) (Sample.library0, Sample.world1)
  = (Ok tt, (Sample.library0, Sample.world1)).
Proof.
  apply (check_for_new_books_nothing_new
           (fun _ _ => [("lib/"%string, [], ["emma.canute"; "notes.txt";
                                             "alice.canute"]%string)])
           (fun _ => None) Sample.library0 Sample.world1).
  - apply (bool_decide_unpack _). vm_compute. exact I.
  - intros p Hp. vm_compute in Hp.
    repeat (apply elem_of_cons in Hp; destruct Hp as [->|Hp]);
      [| | apply elem_of_nil in Hp; contradiction];
      apply (bool_decide_unpack _); vm_compute; exact I.
Defined.

Lemma refresh_finds_nothing_witness :
  exists self' w',
    Library.refresh (fun _ _ => []) (fun _ => None)
                    (Sample.library0, Sample.world1) = (Ok tt, (self', w')) /\
    Library.book_defs self' = [] /\
    Pageable.content (Library.base self') = [] /\
    Pageable.page (Library.base self') = 1 /\
    fs w' !! "lib/book_defs.pkl"%string
    = Some (PickleFile (PBookDefs Sample.book_defs0)).
Proof.
  destruct (refresh_finds_nothing (fun _ _ => []) (fun _ => None)
              Sample.library0 Sample.world1)
    as (self' & w' & Hrun & Hdefs & Hcontent & Hpage & _ & Hcat & _).
  - reflexivity.
  - exists self', w'. repeat split; try assumption.
    change ("lib/book_defs.pkl"%string)
      with (Library.book_defs_file Sample.library0).
    rewrite Hcat; [reflexivity | discriminate].
Defined.


(** ** Building the menu and the library *)

Section InitFacts.
Variable os_walk :
  gmap string file -> string -> list (string * list string * list string).
Variable minidom_rows : file -> option (list (option (list Utility.unichar))).

(** The new line objects of [map(alphas_to_pin_nums, titles)]: distinct,
    not in use before, each holding the pin numbers of its title, the
    objects in use being left alone. *)
Lemma alloc_lines_run (titles : list string) :
  forall w : world,
    exists (rs : list loc) (h' : gmap loc (list Z)),
      Menu.alloc_lines titles w = (Ok rs, set_heap h' w) /\
      Forall2 (fun r t => h' !! r = Some (Utility.alphas_to_pin_nums t))
              rs titles /\
      NoDup rs /\
      (forall r, r ∈ rs -> heap w !! r = None) /\
      (forall r, r ∉ rs -> h' !! r = heap w !! r).
Proof.
  induction titles as [|t titles IH]; intros w; simpl.
  - exists [], (heap w). rewrite set_heap_same.
    repeat split; auto using NoDup_nil_2.
    intros r Hr. apply elem_of_nil in Hr. contradiction.
  - set (r0 := fresh (dom (heap w))).
    set (w1 := set_heap (<[r0 := Utility.alphas_to_pin_nums t]> (heap w)) w).
    destruct (IH w1) as (rs & h' & Hrun & Hall & Hnd & Hnew & Hold).
    assert (Hr0 : heap w !! r0 = None) by apply fresh_loc.
    assert (Hnotin : r0 ∉ rs).
    { intros Hin. specialize (Hnew r0 Hin). simpl in Hnew.
      rewrite lookup_insert_eq in Hnew. discriminate. }
    exists (r0 :: rs), h'. unfold Py.bind, alloc. fold r0. fold w1.
    rewrite Hrun. split; [reflexivity |].
    split; [| split; [| split]].
    + constructor; [| exact Hall].
      rewrite (Hold r0 Hnotin). simpl. apply lookup_insert_eq.
    + apply NoDup_cons. auto.
    + intros r Hr. apply elem_of_cons in Hr. destruct Hr as [->|Hr];
        [exact Hr0 |].
      specialize (Hnew r Hr). simpl in Hnew.
      rewrite lookup_insert_ne in Hnew; [exact Hnew |].
      intros <-. contradiction.
    + intros r Hr. apply not_elem_of_cons in Hr. destruct Hr as [Hne Hr].
      rewrite (Hold r Hr). simpl. apply lookup_insert_ne. congruence.
Qed.

Lemma pageable_init_run {C} (content : C) (dimensions : Z * Z)
    (state_file : string) (w : world) (pg : Z) :
  (fs w !! state_file = None /\ pg = 0) \/
  fs w !! state_file = Some (PickleFile (PState pg)) ->
  Pageable.init content dimensions state_file w =
  (Ok (Pageable.mk dimensions (fst dimensions) (snd dimensions) pg content
         state_file), w).
Proof.
  intros Hstate. unfold Pageable.init. rewrite load_state_run. simpl.
  destruct Hstate as [[-> ->]| ->]; reflexivity.
Qed.

(** X25: the menu.  [Menu.__init__] builds three entries, refresh
    library, shutdown and the address, with one new line object for each
    title, opens at the saved page (page 0 without a state file) and
    writes no file.  On the menu at page 0, [option(0)] refreshes the
    library and then plays the ok sound, [option(1)] clears the page and
    then asks the system to shut down, [option(2)] does nothing, and
    every larger number only plays the error sound. *)
Theorem menu_init_spec (ui_library_refresh : M world unit)
    (ip_address : string) (dimensions : Z * Z) (w : world) (pg : Z) :
  (fs w !! Menu.get_state_file = None /\ pg = 0) \/
  fs w !! Menu.get_state_file = Some (PickleFile (PState pg)) ->
  exists (self : Menu.t) (w' : world),
    Menu.init ui_library_refresh ip_address dimensions w = (Ok self, w') /\
    map Menu.title (Menu.menu self)
    = ["refresh library"; "shutdown"; "ip: " +:+ ip_address]%string /\
    Forall2 (fun r t => heap w' !! r = Some (Utility.alphas_to_pin_nums t))
            (Pageable.content (Menu.base self))
            (map Menu.title (Menu.menu self)) /\
    NoDup (Pageable.content (Menu.base self)) /\
    (forall r, r ∈ Pageable.content (Menu.base self) -> heap w !! r = None) /\
    Pageable.page (Menu.base self) = pg /\
    Pageable.rows (Menu.base self) = snd dimensions /\
    fs w' = fs w /\
    (pg = 0 ->
     forall w2 : world,
       (forall w3, ui_library_refresh w2 = (Ok tt, w3) ->
        Menu.option self 0 w2 = (Ok tt, add_driver_call send_ok_sound w3)) /\
       Menu.option self 1 w2 =
         (Ok tt, add_os_call "sudo shutdown -h now"
                   (add_driver_call clear_page w2)) /\
       Menu.option self 2 w2 = (Ok tt, w2) /\
       (forall n, 3 <= n ->
        Menu.option self n w2 = (Ok tt, add_driver_call send_error_sound w2))).
Proof.
  intros Hstate.
  destruct (alloc_lines_run
              ["refresh library"; "shutdown"; "ip: " +:+ ip_address]%string w)
    as (rs & h' & Hrun & Hall & Hnd & Hnew & Hold).
  eexists. eexists. split.
  - unfold Menu.init, Py.bind at 1.
    cbn [map Menu.title]. rewrite Hrun.
    unfold Py.bind at 1.
    rewrite (pageable_init_run _ _ _ _ pg) by exact Hstate. reflexivity.
  - cbn [Menu.menu Menu.base map Menu.title Pageable.content Pageable.page
         Pageable.rows fs set_heap].
    repeat (split; [assumption || reflexivity |]).
    intros -> w2. unfold Menu.option.
    cbn [Menu.menu Menu.base Pageable.page Pageable.rows].
    repeat split.
    + intros w3 Hw3. unfold Py.try_except. simpl.
      unfold Menu.refresh, Py.bind. rewrite Hw3. reflexivity.
    + intros n Hn. unfold Py.try_except.
      replace (Py.getitem _ (n + 0 * snd dimensions)) with (@None Menu.item);
        [reflexivity |].
      symmetry. apply getitem_None. unfold Py.len. simpl. lia.
Qed.

Lemma menu_init_spec_witness :
  exists (self : Menu.t) (w' : world),
    Menu.init (Py.ret tt) "10.0.0.7" (40, 9) (mk_world ∅ ∅ [] []) = (Ok self, w') /\
    map Menu.title (Menu.menu self)
    = ["refresh library"; "shutdown"; "ip: " +:+ "10.0.0.7"]%string /\
    Menu.option self 7 w' = (Ok tt, add_driver_call send_error_sound w').
Proof.
  destruct (menu_init_spec (Py.ret tt) "10.0.0.7" (40, 9)
              (mk_world ∅ ∅ [] []) 0)
    as (self & w' & Hrun & Htitles & _ & _ & _ & _ & _ & _ & Hopt).
  - left. split; reflexivity.
  - exists self, w'. split; [exact Hrun | split; [exact Htitles |]].
    destruct (Hopt eq_refl w') as (_ & _ & _ & Herr). apply Herr. lia.
Defined.

(** X26: the library after a restart.  With a saved catalog, and when
    every book file found (each once) belongs to a definition of it,
    [Library.__init__] returns a library whose definitions are those of
    the catalog, in the saved order, whose content is one new line
    object a definition, holding the pin numbers of its title, in the
    same order, and which opens at the saved page (page 0 without a
    state file).  It writes no file and changes no line object in use. *)
Theorem library_restart (dimensions : Z * Z) (cfg : config) (w : world)
    (defs : list book_def) (pg : Z) :
  let dir := library_dir cfg in
  let found :=
    Files.matches_of
      (fun f => Os.endswith_any f [".pef"%string; Library.native_ext])
      (os_walk (fs w) dir) in
  fs w !! (dir +:+ "book_defs.pkl") = Some (PickleFile (PBookDefs defs)) ->
  (fs w !! (dir +:+ "library.pkl") = None /\ pg = 0) \/
  fs w !! (dir +:+ "library.pkl") = Some (PickleFile (PState pg)) ->
  NoDup found ->
  (forall p, p ∈ found -> p ∈ map filename defs) ->
  exists (self : Library.t) (w' : world),
    Library.init os_walk minidom_rows dimensions cfg w = (Ok self, w') /\
    Library.book_defs self = defs /\
    Forall2 (fun r d =>
               heap w' !! r = Some (Utility.alphas_to_pin_nums (title d)))
            (Pageable.content (Library.base self)) defs /\
    NoDup (Pageable.content (Library.base self)) /\
    Pageable.page (Library.base self) = pg /\
    Pageable.dimensions (Library.base self) = dimensions /\
    fs w' = fs w /\
    (forall r, is_Some (heap w !! r) -> heap w' !! r = heap w !! r).
Proof.
  intros dir found Hcat Hstate Hnd Hknown.
  destruct (alloc_lines_run (map title defs) w)
    as (rs & h' & Hrun & Hall & Hnd' & Hnew & Hold).
  eexists. eexists. split.
  - unfold Library.init, Py.bind at 1, Library.load_book_defs,
      Py.try_except, Py.bind at 1, read_file.
    fold dir. rewrite Hcat. unfold Py.ret at 1.
    unfold Py.bind at 1, Py.ret at 1. unfold Py.bind at 1. rewrite Hrun.
    unfold Py.bind at 1.
    rewrite (pageable_init_run _ _ _ _ pg) by exact Hstate.
    rewrite check_run.
    cbn [fs set_heap Library.book_dir Library.book_defs].
    fold found. rewrite (remove_existing_known _ _ Hnd Hknown). reflexivity.
  - cbn [Library.book_defs Library.base Pageable.content Pageable.page
         Pageable.dimensions fs set_heap heap].
    split; [reflexivity |].
    split; [apply Forall2_fmap_r in Hall; exact Hall |].
    split; [exact Hnd' |].
    repeat (split; [reflexivity |]).
    intros r [l Hl]. apply Hold. intros Hin.
    rewrite (Hnew r Hin) in Hl. discriminate.
Qed.

End InitFacts.

Lemma library_restart_witness :
  exists (self : Library.t) (w' : world),
    Library.init
      (fun _ _ => [("lib/"%string, [], ["emma.canute"; "alice.canute"]%string)])
      (fun _ => None) (3, 2) (mk_config "lib/") Sample.world1 = (Ok self, w') /\
    Library.book_defs self = Sample.book_defs0 /\
    Pageable.page (Library.base self) = 1.
Proof.
  destruct (library_restart
              (fun _ _ => [("lib/"%string, [],
                            ["emma.canute"; "alice.canute"]%string)])
              (fun _ => None) (3, 2) (mk_config "lib/") Sample.world1
              Sample.book_defs0 1)
    as (self & w' & Hrun & Hdefs & _ & _ & Hpg & _).
  - reflexivity.
  - right. reflexivity.
  - apply (bool_decide_unpack _). vm_compute. exact I.
  - intros p Hp. vm_compute in Hp.
    repeat (apply elem_of_cons in Hp; destruct Hp as [->|Hp]);
      [| | apply elem_of_nil in Hp; contradiction];
      apply (bool_decide_unpack _); vm_compute; exact I.
  - exists self, w'. auto.
Defined.

(** ** DriverBoth: what the loop leaves alone, and missing methods *)

Section DriverBothMore.
Context {W args value : Type}.
Variables emulated pi : string -> option (args -> M W value).
Variables Driver_methods defined_methods : list string.

Abbreviation both_class :=
  (DriverBoth.DriverBoth emulated pi Driver_methods defined_methods).



(** X28: a forwarding method looks both backends' methods up before it
    calls either: when the emulated backend or the Pi has no method of
    that name the call raises AttributeError and has run nothing, the
    emulated backend's method included. *)
Theorem both_needs_both_backends (name : string) (a : args) (w : W) :
  name ∈ Driver_methods ->
  name ∉ defined_methods ->
  emulated name = None \/ pi name = None ->
  DriverBoth.call emulated pi Driver_methods defined_methods name a w
  = (Raise (AttributeError name), w).
Proof.
  intros Hin Hdef Hmissing.
  unfold DriverBoth.call, DriverBoth.DriverBoth.
  rewrite (install_visited emulated pi defined_methods Driver_methods name
             DriverBoth.class_body Hin Hdef).
  unfold DriverBoth.make_method, DriverBoth.getattribute, Py.bind.
  destruct (emulated name) as [em|]; [| reflexivity].
  destruct Hmissing as [Hem|Hpi]; [discriminate |].
  rewrite Hpi. reflexivity.
Qed.

End DriverBothMore.


Lemma both_needs_both_backends_witness :
  DriverBoth.call Sample.emulated0 (fun _ => None) Sample.Driver_methods0
    Sample.defined_methods0 "get_rows" 8 []
  = (Raise (AttributeError "get_rows"), []).
Proof.
  apply (both_needs_both_backends Sample.emulated0 (fun _ => None)
           Sample.Driver_methods0 Sample.defined_methods0 "get_rows" 8 []).
  - right. left.
  - intros Hin. vm_compute in Hin.
    repeat (apply elem_of_cons in Hin; destruct Hin as [Hin|Hin];
            [discriminate |]).
    apply elem_of_nil in Hin. exact Hin.
  - right. reflexivity.
Defined.

(** ** A state file that is the catalog file *)

Section Collision.
Variable os_walk :
  gmap string file -> string -> list (string * list string * list string).
Variable minidom_rows : file -> option (list (option (list Utility.unichar))).


End Collision.

